(** * gotest: start-up sequence of the command-line application

    A shallow embedding of [main.go]: the data-path resolver
    [getDataPath] and the start-up function [run] (directories, logger,
    database, config, daily update check, CLI dispatch).

    [run] is sequential code that calls into packages which are not part
    of [main.go] (os, bufio, time, xlog, database, config, update, cli).
    Their results are read from a [World]: one field per call site, so
    every branch of [run] is reachable.  What [run] itself does is
    recorded in a [State]: the config store it writes, the logger level
    it sets, what it prints, and the ordered trace of its calls.  The
    [State] also holds the two output streams as a whole, with what the
    CLI framework and the command write inside [app.Run]; and a run ends
    either by [run] returning or by the framework calling [os.Exit]
    inside [app.Run], after which nothing of [run] is executed. *)

From stdpp Require Import gmap strings list.
From Stdlib Require Import ZArith Lia.

Local Open Scope string_scope.
Local Open Scope list_scope.

Module Main.

(** ** Constants of main.go *)

Definition Name : string := "gotest".
Definition DefaultLogLevel : string := "warn".
Definition DataIndexPath : string := "/var/lib/" +:+ Name +:+ "/index".

(** The newline of the format strings. *)
Definition nl : string := String (Ascii.ascii_of_nat 10) EmptyString.

(** ** Data *)

(** A Go [(T, error)] pair; an [error] alone is an [option string]
    ([None] for [nil]).  Errors are kept as their message. *)
Inductive result (A : Type) : Type :=
| Ok (a : A)
| Err (e : string).
Arguments Ok {A} a.
Arguments Err {A} e.

(** Values of the config store: [config.Get[string]] and
    [config.Get[bool]] are the two instances main.go uses. *)
Inductive CfgVal : Type :=
| VStr (s : string)
| VBool (b : bool).

#[global] Instance CfgVal_eq_dec : EqDecision CfgVal.
Proof. solve_decision. Defined.

(** What [bufio.Scanner] delivers on the opened index file: the tokens
    [sc.Scan()] yields in order, and [sc.Err()] once it stops. *)
Record Scanner : Type := {
  sc_tokens : list string;
  sc_err : option string;
}.

(** What the CLI framework does with [os.Args] inside [app.Run]: it
    either returns on its own (usage error, help, version) without
    running the [Before] hook, or runs [Before] with the value of the
    [log] flag and then the selected command. *)
Inductive CliArgs : Type :=
| CliReturn (r : option string)
| CliDispatch (logFlag : string).

(** How the selected command (the framework's own help action when no
    subcommand matches) ends: with nil, with an ordinary error, which
    [app.Run] returns, or with an error that carries an exit code.  The
    [cli.Command] of main.go sets no [ExitErrHandler], so on the last
    the framework calls [os.Exit(code)] inside [app.Run]: `gotest
    frobnicate` ends so with code 3. *)
Inductive ActionResult : Type :=
| ActOk
| ActErr (e : string)
| ActExit (msg : string) (code : Z).

#[global] Instance ActionResult_eq_dec : EqDecision ActionResult.
Proof. solve_decision. Defined.

(** The error of a command's result, if any. *)
Definition act_err (r : ActionResult) : option string :=
  match r with
  | ActOk => None
  | ActErr e => Some e
  | ActExit msg _ => Some msg
  end.

(** Times are nanoseconds since the Unix epoch; a [time.Duration] is a
    64-bit count of nanoseconds. *)
Definition Hour : Z := 3600 * 1000000000.
Definition maxDuration : Z := 2 ^ 63 - 1.
Definition minDuration : Z := - 2 ^ 63.

(** [now.Sub(t)]: the difference, saturated to the range of Duration. *)
Definition time_sub (now t : Z) : Z :=
  let d := (now - t)%Z in
  if (d <? minDuration)%Z then minDuration
  else if (maxDuration <? d)%Z then maxDuration
  else d.

(** [d > 24*time.Hour] *)
Definition over_a_day (d : Z) : bool := (24 * Hour <? d)%Z.

(** The environment of one process run. *)
Record World : Type := {
  w_euid : Z;                               (* os.Geteuid() *)
  w_open_index : result Scanner;            (* os.Open(DataIndexPath), scanned *)
  w_home : result string;                   (* os.UserHomeDir() *)
  w_mkdir : string -> option string;        (* os.MkdirAll(path, 0755) *)
  w_xlog_new : option string;               (* xlog.New *)
  w_db_new : option string;                 (* database.New *)
  w_config_init : option string;            (* config.Init *)
  w_store : gmap string CfgVal;             (* the persisted config store *)
  w_setLevel : string -> option string;     (* log.SetLevel(level) *)
  w_now_since : Z;                          (* time.Now() inside time.Since *)
  w_now_stamp : Z;                          (* time.Now() of the new stamp *)
  w_config_set : option string;             (* config.Set *)
  w_update_check : result bool;             (* update.Check *)
  w_cli : CliArgs;                          (* the framework on os.Args *)
  w_action : ActionResult;                  (* the dispatched command *)
  w_app_stdout : list string;               (* written to os.Stdout inside app.Run *)
  w_app_stderr : list string;               (* written to os.Stderr inside app.Run *)
}.

(** The calls [run] makes, in the order it makes them, each with the
    error it returned. *)
Inductive Event : Type :=
| EvGetDataPath (err : option string)
| EvMkdirAll (path : string) (err : option string)
| EvXlogNew (dir level : string) (err : option string)
| EvDbNew (err : option string)
| EvConfigInit (err : option string)
| EvConfigGet (key : string) (err : option string)
| EvSetLevel (level : string) (err : option string)
| EvTimeParse (s : string) (err : option string)
| EvConfigSet (key : string) (v : CfgVal) (err : option string)
| EvUpdateCheck (err : option string)
| EvDebug (msg : string)
| EvLogError (msg : string)
| EvCliReturn (err : option string)
| EvAction (r : ActionResult)
| EvLogClose
| EvDbClose
| EvStop.

#[global] Instance Event_eq_dec : EqDecision Event.
Proof. solve_decision. Defined.

(** The error an event carries, if any. *)
Definition ev_err (ev : Event) : option string :=
  match ev with
  | EvGetDataPath e | EvMkdirAll _ e | EvXlogNew _ _ e | EvDbNew e
  | EvConfigInit e | EvConfigGet _ e | EvSetLevel _ e | EvTimeParse _ e
  | EvConfigSet _ _ e | EvUpdateCheck e | EvCliReturn e => e
  | EvAction r => act_err r
  | EvDebug _ | EvLogError _ | EvLogClose | EvDbClose | EvStop => None
  end.

Definition ev_failed (ev : Event) : bool :=
  match ev_err ev with Some _ => true | None => false end.

(** What [run] has done so far. *)
Record State : Type := {
  st_cfg : gmap string CfgVal;      (* the persisted config store *)
  st_level : option string;         (* level of the logger, once created *)
  st_stdout : list string;          (* what run's own code writes to os.Stdout *)
  st_stderr : list string;          (* what run's own code writes to os.Stderr *)
  st_trace : list Event;            (* calls made, oldest first *)
  st_defers : list Event;           (* deferred calls, latest first *)
  st_out : list string;             (* standard output as a whole, in order *)
  st_err : list string;             (* standard error as a whole, in order *)
}.

(** ** The start-up monad

    A computation of [run] either goes on with a value, or has executed
    a [return code], or has ended the process in a callee's
    [os.Exit(code)]; the state is threaded through in each case. *)

Inductive Outcome (A : Type) : Type :=
| Exit (code : Z)
| Next (a : A)
| Halt (code : Z).
Arguments Exit {A} code.
Arguments Next {A} a.
Arguments Halt {A} code.

Definition M (A : Type) : Type := State -> Outcome A * State.

#[global] Instance M_ret : MRet M := fun A a st => (Next a, st).

#[global] Instance M_bind : MBind M := fun A B k m st =>
  match m st with
  | (Exit c, st') => (Exit c, st')
  | (Next a, st') => k a st'
  | (Halt c, st') => (Halt c, st')
  end.

(** [return code] *)
Definition exit_with {A : Type} (code : Z) : M A := fun st => (Exit code, st).

(** [os.Exit(code)] in a callee *)
Definition halt_with {A : Type} (code : Z) : M A := fun st => (Halt code, st).

Definition set_cfg (c : gmap string CfgVal) (st : State) : State :=
  {| st_cfg := c; st_level := st_level st; st_stdout := st_stdout st;
     st_stderr := st_stderr st; st_trace := st_trace st;
     st_defers := st_defers st; st_out := st_out st; st_err := st_err st |}.

Definition set_level (l : option string) (st : State) : State :=
  {| st_cfg := st_cfg st; st_level := l; st_stdout := st_stdout st;
     st_stderr := st_stderr st; st_trace := st_trace st;
     st_defers := st_defers st; st_out := st_out st; st_err := st_err st |}.

(** A write of [run]'s own code goes to its list and to the stream. *)
Definition add_stdout (s : string) (st : State) : State :=
  {| st_cfg := st_cfg st; st_level := st_level st;
     st_stdout := st_stdout st ++ [s];
     st_stderr := st_stderr st; st_trace := st_trace st;
     st_defers := st_defers st;
     st_out := st_out st ++ [s]; st_err := st_err st |}.

Definition add_stderr (s : string) (st : State) : State :=
  {| st_cfg := st_cfg st; st_level := st_level st; st_stdout := st_stdout st;
     st_stderr := st_stderr st ++ [s]; st_trace := st_trace st;
     st_defers := st_defers st;
     st_out := st_out st; st_err := st_err st ++ [s] |}.

(** What is written inside [app.Run] goes to the streams only. *)
Definition add_app_output (out err : list string) (st : State) : State :=
  {| st_cfg := st_cfg st; st_level := st_level st; st_stdout := st_stdout st;
     st_stderr := st_stderr st; st_trace := st_trace st;
     st_defers := st_defers st;
     st_out := st_out st ++ out; st_err := st_err st ++ err |}.

Definition add_trace (evs : list Event) (st : State) : State :=
  {| st_cfg := st_cfg st; st_level := st_level st; st_stdout := st_stdout st;
     st_stderr := st_stderr st; st_trace := st_trace st ++ evs;
     st_defers := st_defers st; st_out := st_out st; st_err := st_err st |}.

Definition push_defer (ev : Event) (st : State) : State :=
  {| st_cfg := st_cfg st; st_level := st_level st; st_stdout := st_stdout st;
     st_stderr := st_stderr st; st_trace := st_trace st;
     st_defers := ev :: st_defers st;
     st_out := st_out st; st_err := st_err st |}.

Definition modify (f : State -> State) : M unit := fun st => (Next tt, f st).
Definition get_state : M State := fun st => (Next st, st).

Definition emit (ev : Event) : M unit := modify (add_trace [ev]).
Definition defer_call (ev : Event) : M unit := modify (push_defer ev).

(** [fmt.Fprintf(os.Stderr, msg + "%s\n", err); return 1] *)
Definition fatal {A : Type} (msg err : string) : M A :=
  modify (add_stderr (msg +:+ err +:+ nl)) ;; exit_with 1%Z.

(** [if err != nil { ...; return 1 }] after a call returning [(T, error)]
    and after one returning [error]. *)
Definition or_fatal {A : Type} (msg : string) (r : result A) : M A :=
  match r with
  | Ok a => mret a
  | Err e => fatal msg e
  end.

Definition nil_or_fatal (msg : string) (e : option string) : M unit :=
  match e with
  | None => mret tt
  | Some e => fatal msg e
  end.

Definition err_of {A : Type} (r : result A) : option string :=
  match r with
  | Ok _ => None
  | Err e => Some e
  end.

(** ** getDataPath *)

(** [for sc.Scan() { lines = append(lines, sc.Text()) }] *)
Fixpoint scan_loop (toks lines : list string) : list string :=
  match toks with
  | [] => lines
  | t :: toks' => scan_loop toks' (lines ++ [t])
  end.

Section Program.

(** Pure functions of the Go standard library. *)
Variable path_join : string -> string -> string.   (* filepath.Join *)
Variable time_parse : string -> result Z.          (* time.Parse(time.RFC3339, s) *)
Variable time_format : Z -> string.                (* t.Format(time.RFC3339) *)

Definition getDataPath (w : World) : result string :=
  if (w_euid w =? 0)%Z then
    (* root: read from index file *)
    match w_open_index w with
    | Err e => Err ("failed to open " +:+ DataIndexPath +:+ ": " +:+ e)
    | Ok sc =>
        let lines := scan_loop (sc_tokens sc) [] in
        match sc_err sc with
        | Some e => Err ("failed reading " +:+ DataIndexPath +:+ ": " +:+ e)
        | None =>
            if (length lines <? 2)%nat
            then Err ("malformed index file " +:+ DataIndexPath)
            else Ok (default "" (lines !! 1%nat))   (* lines[1], in range here *)
        end
    end
  else
    (* non-root: $HOME/.gotest *)
    match w_home w with
    | Err e => Err ("cannot determine home dir: " +:+ e)
    | Ok home => Ok (path_join home ("." +:+ Name))
    end.

(** ** The calls of [run] into other packages *)

Definition os_MkdirAll (w : World) (path : string) : M (option string) :=
  let e := w_mkdir w path in
  emit (EvMkdirAll path e) ;; mret e.

(** [xlog.New(dir, level)]: on success there is a logger at [level]. *)
Definition xlog_New (w : World) (dir level : string) : M (option string) :=
  let e := w_xlog_new w in
  emit (EvXlogNew dir level e) ;;
  match e with
  | None => modify (set_level (Some level)) ;; mret None
  | Some _ => mret e
  end.

Definition database_New (w : World) : M (option string) :=
  let e := w_db_new w in
  emit (EvDbNew e) ;; mret e.

(** [config.Init]: opens the persisted store, which [w_store] gives as
    this call leaves it (with the defaults of a first run in place). *)
Definition config_Init (w : World) : M (option string) :=
  let e := w_config_init w in
  emit (EvConfigInit e) ;; mret e.

(** Modelled from the spec: the package config is not part of main.go.
    The store is "a mapping from string keys to typed values (string,
    bool)"; [config.Get[T]] fails on a key that is absent or holds a
    value of another type. *)
Definition get_string (c : gmap string CfgVal) (key : string) : result string :=
  match c !! key with
  | Some (VStr s) => Ok s
  | Some (VBool _) => Err ("config key " +:+ key +:+ " is not a string")
  | None => Err ("config key " +:+ key +:+ " not found")
  end.

Definition get_bool (c : gmap string CfgVal) (key : string) : result bool :=
  match c !! key with
  | Some (VBool b) => Ok b
  | Some (VStr _) => Err ("config key " +:+ key +:+ " is not a bool")
  | None => Err ("config key " +:+ key +:+ " not found")
  end.

Definition config_Get_string (key : string) : M (result string) :=
  st ← get_state;
  let r := get_string (st_cfg st) key in
  emit (EvConfigGet key (err_of r)) ;; mret r.

Definition config_Get_bool (key : string) : M (result bool) :=
  st ← get_state;
  let r := get_bool (st_cfg st) key in
  emit (EvConfigGet key (err_of r)) ;; mret r.

(** [config.Set(ctx, key, v)]: on success the store holds [v] at [key]. *)
Definition config_Set (w : World) (key : string) (v : CfgVal) : M (option string) :=
  let e := w_config_set w in
  emit (EvConfigSet key v e) ;;
  match e with
  | None =>
      st ← get_state;
      modify (set_cfg (<[key := v]> (st_cfg st))) ;; mret None
  | Some _ => mret e
  end.

(** [log.SetLevel(level)]: on success the logger is at [level]. *)
Definition log_SetLevel (w : World) (level : string) : M (option string) :=
  let e := w_setLevel w level in
  emit (EvSetLevel level e) ;;
  match e with
  | None => modify (set_level (Some level)) ;; mret None
  | Some _ => mret e
  end.

Definition time_Parse (s : string) : M (result Z) :=
  let r := time_parse s in
  emit (EvTimeParse s (err_of r)) ;; mret r.

Definition update_Check (w : World) : M (result bool) :=
  let r := w_update_check w in
  emit (EvUpdateCheck (err_of r)) ;; mret r.

Definition xlog_Debug (msg : string) : M unit := emit (EvDebug msg).

(** [fmt.Println(s)] *)
Definition fmt_Println (s : string) : M unit := modify (add_stdout (s +:+ nl)).

(** ** run, lines 40-103: paths, logger, database, config, log level *)

Definition boot (w : World) : M unit :=
  defer_call EvStop ;;
  (* get data path *)
  let r := getDataPath w in
  emit (EvGetDataPath (err_of r)) ;;
  dataPath ← or_fatal "failed to get data path: " r;
  (* create data dir if it doesn't exist *)
  e ← os_MkdirAll w dataPath;
  nil_or_fatal "failed to create data path: " e ;;
  (* get log path *)
  let logPath := path_join dataPath "logs" in
  e ← os_MkdirAll w logPath;
  nil_or_fatal "failed to create log path: " e ;;
  (* init logger *)
  e ← xlog_New w logPath DefaultLogLevel;
  nil_or_fatal "failed to initialize logger: " e ;;
  defer_call EvLogClose ;;
  (* init database *)
  e ← database_New w;
  nil_or_fatal "failed to initialize database: " e ;;
  defer_call EvDbClose ;;
  xlog_Debug "Database initialized" ;;
  (* init config *)
  e ← config_Init w;
  nil_or_fatal "failed to initialize config: " e ;;
  xlog_Debug "Config initialized" ;;
  (* set log level *)
  r ← config_Get_string "logLevel";
  cfgLogLevel ← or_fatal "failed to get log level from config: " r;
  e ← log_SetLevel w cfgLogLevel;
  nil_or_fatal "failed to set log level: " e.

(** ** run, lines 105-143: the daily update check *)

Definition update_notice : string :=
  "Update available! Run 'goweb update check' to see details.".

Definition update_block (w : World) : M unit :=
  r ← config_Get_bool "updateNotify";
  updateNotify ← or_fatal "failed to get updateNotify from config: " r;
  if updateNotify : bool then
    (* get last update check time from config *)
    r ← config_Get_string "lastUpdateCheck";
    tStr ← or_fatal "failed to get lastUpdateCheck from config: " r;
    r ← time_Parse tStr;
    t ← or_fatal "failed to parse lastUpdateCheck time: " r;
    (* once a day, very lightweight check *)
    if over_a_day (time_sub (w_now_since w) t) then
      xlog_Debug "Checking for updates..." ;;
      (* update check time in config *)
      e ← config_Set w "lastUpdateCheck" (VStr (time_format (w_now_stamp w)));
      nil_or_fatal "failed to set lastUpdateCheck in config: " e ;;
      r ← update_Check w;
      updateAvailable ← or_fatal "failed to check for updates: " r;
      if updateAvailable : bool then fmt_Println update_notice else mret tt
    else mret tt
  else mret tt.

(** ** run, lines 145-182: the CLI application *)

(** The [Before] hook of the root command. *)
Definition before_hook (w : World) (logLevel : string) : M (option string) :=
  if negb (String.eqb logLevel DefaultLogLevel)
  then log_SetLevel w logLevel
  else mret None.

(** [app.Run(ctx, os.Args)]: an error of [Before] is returned and the
    command is not run; an ordinary error of the command is returned;
    on an error of the command that carries an exit code the framework
    calls [os.Exit] and [app.Run] does not return.  What the framework
    and the command write to the two streams meanwhile is the world's
    [w_app_stdout] and [w_app_stderr]. *)
Definition app_Run (w : World) : M (option string) :=
  modify (add_app_output (w_app_stdout w) (w_app_stderr w)) ;;
  match w_cli w with
  | CliReturn r => emit (EvCliReturn r) ;; mret r
  | CliDispatch logFlag =>
      e ← before_hook w logFlag;
      match e with
      | Some _ => mret e
      | None =>
          let r := w_action w in
          emit (EvAction r) ;;
          match r with
          | ActOk => mret None
          | ActErr err => mret (Some err)
          | ActExit _ code => halt_with code
          end
      end
  end.

Definition run_app (w : World) : M Z :=
  e ← app_Run w;
  match e with
  | Some err =>
      emit (EvLogError err) ;;
      modify (add_stderr (err +:+ nl)) ;;
      exit_with 1%Z
  | None => exit_with 0%Z
  end.

(** ** run *)

Definition init_state (w : World) : State :=
  {| st_cfg := w_store w; st_level := None; st_stdout := []; st_stderr := [];
     st_trace := []; st_defers := []; st_out := []; st_err := [] |}.

(** Everything before the CLI application is built. *)
Definition startup (w : World) : M unit :=
  boot w ;; update_block w.

(** The body of [run], before the deferred calls. *)
Definition run_body (w : World) : M Z :=
  startup w ;; run_app w.

(** On return the deferred calls run, latest first. *)
Definition run_defers (st : State) : State :=
  {| st_cfg := st_cfg st; st_level := st_level st; st_stdout := st_stdout st;
     st_stderr := st_stderr st; st_trace := st_trace st ++ st_defers st;
     st_defers := []; st_out := st_out st; st_err := st_err st |}.

Definition code_of (o : Outcome Z) : Z :=
  match o with
  | Exit c => c
  | Next c => c
  | Halt c => c
  end.

(** [os.Exit(run())]: the exit code of the process and everything the
    call of [run] did.  When [run] returns, its deferred calls run and
    [main] exits with the value returned; after an [os.Exit] inside
    [app.Run] the process is gone with that code and no deferred call
    runs. *)
Definition run (w : World) : Z * State :=
  let '(o, st) := run_body w (init_state w) in
  match o with
  | Halt c => (c, st)
  | _ => (code_of o, run_defers st)
  end.

Definition exit_code (w : World) : Z := (run w).1.
Definition final (w : World) : State := (run w).2.

(** ** Vocabulary of the properties *)

(** The value [run] writes to ["lastUpdateCheck"]. *)
Definition new_stamp (w : World) : CfgVal := VStr (time_format (w_now_stamp w)).

(** Every step of lines 40-103 succeeds: the data path is [p] and the
    stored log level [lvl]. *)
Record boots (w : World) (p lvl : string) : Prop := {
  boots_path : getDataPath w = Ok p;
  boots_data_dir : w_mkdir w p = None;
  boots_log_dir : w_mkdir w (path_join p "logs") = None;
  boots_logger : w_xlog_new w = None;
  boots_database : w_db_new w = None;
  boots_config : w_config_init w = None;
  boots_level : w_store w !! "logLevel" = Some (VStr lvl);
  boots_set_level : w_setLevel w lvl = None;
}.

(** The calls of lines 40-103 when all of them succeed. *)
Definition boot_trace (p lvl : string) : list Event :=
  [EvGetDataPath None; EvMkdirAll p None;
   EvMkdirAll (path_join p "logs") None;
   EvXlogNew (path_join p "logs") DefaultLogLevel None; EvDbNew None;
   EvDebug "Database initialized"; EvConfigInit None;
   EvDebug "Config initialized"; EvConfigGet "logLevel" None;
   EvSetLevel lvl None].

(** [run] gets as far as building the CLI application, in state
    [at_app w]. *)
Definition reaches_app (w : World) : Prop :=
  (startup w (init_state w)).1 = Next tt.

Definition at_app (w : World) : State := (startup w (init_state w)).2.

(** The update block lets the run go on: updateNotify is off, or the
    stored stamp parses and is either recent or rewritten and checked
    without error. *)
Definition update_passes (w : World) : Prop :=
  w_store w !! "updateNotify" = Some (VBool false)
  \/ (w_store w !! "updateNotify" = Some (VBool true)
      /\ exists s t, w_store w !! "lastUpdateCheck" = Some (VStr s)
           /\ time_parse s = Ok t
           /\ ((time_sub (w_now_since w) t <= 24 * Hour)%Z
               \/ (w_config_set w = None
                   /\ exists b, w_update_check w = Ok b))).

(** A call of [run] returns an error to it.  Each case names the step
    and what of the world makes [run] get the error from it. *)
Inductive step_fails (w : World) : Prop :=
| fails_data_path (e : string) :
    getDataPath w = Err e -> step_fails w
| fails_data_dir (p e : string) :
    getDataPath w = Ok p -> w_mkdir w p = Some e -> step_fails w
| fails_log_dir (p e : string) :
    getDataPath w = Ok p -> w_mkdir w (path_join p "logs") = Some e ->
    step_fails w
| fails_logger (e : string) :
    w_xlog_new w = Some e -> step_fails w
| fails_database (e : string) :
    w_db_new w = Some e -> step_fails w
| fails_config_init (e : string) :
    w_config_init w = Some e -> step_fails w
| fails_get_level (e : string) :
    get_string (w_store w) "logLevel" = Err e -> step_fails w
| fails_set_level (lvl e : string) :
    w_store w !! "logLevel" = Some (VStr lvl) -> w_setLevel w lvl = Some e ->
    step_fails w
| fails_get_notify (e : string) :
    get_bool (w_store w) "updateNotify" = Err e -> step_fails w
| fails_get_stamp (e : string) :
    w_store w !! "updateNotify" = Some (VBool true) ->
    get_string (w_store w) "lastUpdateCheck" = Err e -> step_fails w
| fails_parse (s e : string) :
    w_store w !! "updateNotify" = Some (VBool true) ->
    w_store w !! "lastUpdateCheck" = Some (VStr s) ->
    time_parse s = Err e -> step_fails w
| fails_set_stamp (s : string) (t : Z) (e : string) :
    w_store w !! "updateNotify" = Some (VBool true) ->
    w_store w !! "lastUpdateCheck" = Some (VStr s) ->
    time_parse s = Ok t ->
    (24 * Hour < time_sub (w_now_since w) t)%Z ->
    w_config_set w = Some e -> step_fails w
| fails_check (s : string) (t : Z) (e : string) :
    w_store w !! "updateNotify" = Some (VBool true) ->
    w_store w !! "lastUpdateCheck" = Some (VStr s) ->
    time_parse s = Ok t ->
    (24 * Hour < time_sub (w_now_since w) t)%Z ->
    w_update_check w = Err e -> step_fails w
| fails_cli (e : string) :
    w_cli w = CliReturn (Some e) -> step_fails w
| fails_hook (l e : string) :
    w_cli w = CliDispatch l -> l <> DefaultLogLevel ->
    w_setLevel w l = Some e -> step_fails w
| fails_command (l e : string) :
    w_cli w = CliDispatch l ->
    l = DefaultLogLevel \/ w_setLevel w l = None ->
    w_action w = ActErr e -> step_fails w.

(** The framework ends the process with [code] inside [app.Run]: [run]
    gets as far as the CLI application, the [Before] hook passes and the
    command ends in an error that carries that exit code. *)
Definition app_exits (w : World) (code : Z) : Prop :=
  (exists p lvl, boots w p lvl)
  /\ update_passes w
  /\ exists l msg, w_cli w = CliDispatch l
       /\ (l = DefaultLogLevel \/ w_setLevel w l = None)
       /\ w_action w = ActExit msg code.

End Program.

Definition is_check (ev : Event) : bool :=
  match ev with EvUpdateCheck _ => true | _ => false end.

Definition is_set (ev : Event) : bool :=
  match ev with EvConfigSet _ _ _ => true | _ => false end.

Definition is_setLevel (ev : Event) : bool :=
  match ev with EvSetLevel _ _ => true | _ => false end.

Definition is_action (ev : Event) : bool :=
  match ev with EvAction _ => true | _ => false end.

Definition is_parse (ev : Event) : bool :=
  match ev with EvTimeParse _ _ => true | _ => false end.

Definition is_get_stamp (ev : Event) : bool :=
  match ev with
  | EvConfigGet key _ => String.eqb key "lastUpdateCheck"
  | _ => false
  end.

(** A [config.Set] that succeeded. *)
Definition is_set_ok (ev : Event) : bool :=
  match ev with EvConfigSet _ _ None => true | _ => false end.

(** No [b] event of the trace comes before the first [a] event. *)
Fixpoint guarded (a b : Event -> bool) (l : list Event) : bool :=
  match l with
  | [] => true
  | ev :: l' => negb (b ev) && (if a ev then true else guarded a b l')
  end.

(** How many events of a trace satisfy [p]. *)
Fixpoint count (p : Event -> bool) (l : list Event) : nat :=
  match l with
  | [] => 0
  | ev :: l' => (if p ev then 1 else 0) + count p l'
  end.

(** The same world over another config store. *)
Definition with_store (c : gmap string CfgVal) (w : World) : World :=
  {| w_euid := w_euid w; w_open_index := w_open_index w; w_home := w_home w;
     w_mkdir := w_mkdir w; w_xlog_new := w_xlog_new w; w_db_new := w_db_new w;
     w_config_init := w_config_init w; w_store := c;
     w_setLevel := w_setLevel w; w_now_since := w_now_since w;
     w_now_stamp := w_now_stamp w; w_config_set := w_config_set w;
     w_update_check := w_update_check w; w_cli := w_cli w;
     w_action := w_action w; w_app_stdout := w_app_stdout w;
     w_app_stderr := w_app_stderr w |}.

(** The deferred calls, and the calls that made what they close. *)
Definition is_close (ev : Event) : bool :=
  match ev with EvLogClose | EvDbClose | EvStop => true | _ => false end.

Definition logger_made (ev : Event) : bool :=
  match ev with EvXlogNew _ _ None => true | _ => false end.

Definition db_made (ev : Event) : bool :=
  match ev with EvDbNew None => true | _ => false end.

(** A trace without its deferred calls. *)
Definition body_of (l : list Event) : list Event :=
  List.filter (fun ev => negb (is_close ev)) l.

(** The deferred calls a body of calls leaves to run on return. *)
Definition closes (body : list Event) : list Event :=
  (if existsb db_made body then [EvDbClose] else [])
  ++ (if existsb logger_made body then [EvLogClose] else [])
  ++ [EvStop].

(** What may still happen once a call has failed: [log.Error] and the
    deferred calls. *)
Definition is_aftermath (ev : Event) : bool :=
  match ev with
  | EvLogError _ | EvLogClose | EvDbClose | EvStop => true
  | _ => false
  end.

(** After the first failed call only aftermath follows. *)
Fixpoint stops_at_failure (l : list Event) : bool :=
  match l with
  | [] => true
  | ev :: l' =>
      if ev_failed ev then forallb is_aftermath l' else stops_at_failure l'
  end.

(** [app.Run] ends the run with 0: the framework returned nil on its
    own, or the [log] flag is the default or accepted by the logger and
    the command returned nil (or an error that carries the exit code 0,
    on which the framework exits with 0). *)
Definition app_passes (w : World) : Prop :=
  match w_cli w with
  | CliReturn r => r = None
  | CliDispatch l =>
      (l = DefaultLogLevel \/ w_setLevel w l = None)
      /\ (w_action w = ActOk \/ exists msg, w_action w = ActExit msg 0)
  end.

(** The same world with other writes inside [app.Run]. *)
Definition with_app_output (out err : list string) (w : World) : World :=
  {| w_euid := w_euid w; w_open_index := w_open_index w; w_home := w_home w;
     w_mkdir := w_mkdir w; w_xlog_new := w_xlog_new w; w_db_new := w_db_new w;
     w_config_init := w_config_init w; w_store := w_store w;
     w_setLevel := w_setLevel w; w_now_since := w_now_since w;
     w_now_stamp := w_now_stamp w; w_config_set := w_config_set w;
     w_update_check := w_update_check w; w_cli := w_cli w;
     w_action := w_action w; w_app_stdout := out; w_app_stderr := err |}.

(** The same world with another command line and command result. *)
Definition with_cli (cli : CliArgs) (act : ActionResult) (w : World) : World :=
  {| w_euid := w_euid w; w_open_index := w_open_index w; w_home := w_home w;
     w_mkdir := w_mkdir w; w_xlog_new := w_xlog_new w; w_db_new := w_db_new w;
     w_config_init := w_config_init w; w_store := w_store w;
     w_setLevel := w_setLevel w; w_now_since := w_now_since w;
     w_now_stamp := w_now_stamp w; w_config_set := w_config_set w;
     w_update_check := w_update_check w; w_cli := cli;
     w_action := act; w_app_stdout := w_app_stdout w;
     w_app_stderr := w_app_stderr w |}.

End Main.

Import Main.

(** * A reference instance of the library functions

    Used to run the model on concrete inputs: paths joined with a slash,
    and RFC3339 in its UTC form [YYYY-MM-DDTHH:MM:SSZ], whole seconds,
    years 0 to 9999. *)

Module Ref.

Local Open Scope Z_scope.

Definition path_join (a b : string) : string := a +:+ "/" +:+ b.

(** Days since 1970-01-01 of a date of the proleptic Gregorian calendar,
    and back. *)
Definition days_from_civil (y m d : Z) : Z :=
  let y' := if m <=? 2 then y - 1 else y in
  let era := y' / 400 in
  let yoe := y' - era * 400 in
  let mp := (m + 9) mod 12 in
  let doy := (153 * mp + 2) / 5 + d - 1 in
  let doe := yoe * 365 + yoe / 4 - yoe / 100 + doy in
  era * 146097 + doe - 719468.

Definition civil_from_days (z : Z) : Z * Z * Z :=
  let z := z + 719468 in
  let era := z / 146097 in
  let doe := z - era * 146097 in
  let yoe := (doe - doe / 1460 + doe / 36524 - doe / 146096) / 365 in
  let doy := doe - (365 * yoe + yoe / 4 - yoe / 100) in
  let mp := (5 * doy + 2) / 153 in
  let d := doy - (153 * mp + 2) / 5 + 1 in
  let m := if mp <? 10 then mp + 3 else mp - 9 in
  let y := yoe + era * 400 in
  (if m <=? 2 then y + 1 else y, m, d).

Definition digit (n : Z) : Ascii.ascii :=
  Ascii.ascii_of_nat (48 + Z.to_nat (n mod 10)).

(** The last [k] decimal digits of [n], in front of [acc]. *)
Fixpoint digits (k : nat) (n : Z) (acc : string) : string :=
  match k with
  | O => acc
  | S k' => digits k' (n / 10) (String (digit n) acc)
  end.

Definition second : Z := 1000000000.

Definition time_format (t : Z) : string :=
  let secs := t / second in
  let '(y, m, d) := civil_from_days (secs / 86400) in
  let r := secs mod 86400 in
  digits 4 y ("-" +:+ digits 2 m ("-" +:+ digits 2 d ("T" +:+
  digits 2 (r / 3600) (":" +:+ digits 2 (r / 60 mod 60) (":" +:+
  digits 2 (r mod 60) "Z"))))).

Definition digit_val (c : Ascii.ascii) : option Z :=
  let n := Z.of_nat (Ascii.nat_of_ascii c) in
  if (48 <=? n) && (n <=? 57) then Some (n - 48) else None.

Definition num2 (a b : Ascii.ascii) : option Z :=
  x ← digit_val a; y ← digit_val b; Some (10 * x + y).

Definition is_char (c : Ascii.ascii) (s : string) : option unit :=
  if String.eqb (String c EmptyString) s then Some tt else None.

Definition check (b : bool) : option unit := if b then Some tt else None.

Definition parse_fields (s : string) : option Z :=
  match String.list_ascii_of_string s with
  | [y1; y2; y3; y4; c1; m1; m2; c2; d1; d2; c3;
     h1; h2; c4; i1; i2; c5; s1; s2; c6] =>
      yh ← num2 y1 y2; yl ← num2 y3 y4;
      m ← num2 m1 m2; d ← num2 d1 d2;
      h ← num2 h1 h2; i ← num2 i1 i2; sec ← num2 s1 s2;
      is_char c1 "-" ;; is_char c2 "-" ;; is_char c3 "T" ;;
      is_char c4 ":" ;; is_char c5 ":" ;; is_char c6 "Z" ;;
      let y := 100 * yh + yl in
      let days := days_from_civil y m d in
      check ((1 <=? m) && (m <=? 12) && (1 <=? d)
             && bool_decide (civil_from_days days = (y, m, d))
             && (h <=? 23) && (i <=? 59) && (sec <=? 59)) ;;
      Some ((days * 86400 + h * 3600 + i * 60 + sec) * second)
  | _ => None
  end.

Definition time_parse (s : string) : result Z :=
  match parse_fields s with
  | Some t => Ok t
  | None => Err ("parsing time " +:+ s +:+ ": not RFC3339")
  end.

(** [log.SetLevel] accepting the five level names of the flag's usage
    text. *)
Definition setLevel (level : string) : option string :=
  if bool_decide (level ∈ ["debug"; "info"; "warn"; "error"; "none"])
  then None
  else Some ("invalid log level: " +:+ level).

(** A store with the three keys of the persisted schema. *)
Definition store (level : string) (notify : bool) (stamp : string)
  : gmap string CfgVal :=
  <["logLevel" := VStr level]>
    (<["updateNotify" := VBool notify]>
       (<["lastUpdateCheck" := VStr stamp]> ∅)).

(** A run as an ordinary user in which every call succeeds:
    the stored stamp, the clock (seconds since the epoch), the result of
    the update check and the command line are left open. *)
Definition world (c : gmap string CfgVal) (now : Z) (upd : result bool)
    (cli : CliArgs) : World :=
  {| w_euid := 1000;
     w_open_index := Err "open /var/lib/gotest/index: no such file or directory";
     w_home := Ok "/home/ada";
     w_mkdir := fun _ => None;
     w_xlog_new := None;
     w_db_new := None;
     w_config_init := None;
     w_store := c;
     w_setLevel := setLevel;
     w_now_since := now * second;
     w_now_stamp := now * second + 1;
     w_config_set := None;
     w_update_check := upd;
     w_cli := cli;
     w_action := ActOk;
     w_app_stdout := [];
     w_app_stderr := [] |}.

(** A run as root with the given index file. *)
Definition root_world (sc : Scanner) : World :=
  {| w_euid := 0;
     w_open_index := Ok sc;
     w_home := Ok "/root";
     w_mkdir := fun _ => None;
     w_xlog_new := None;
     w_db_new := None;
     w_config_init := None;
     w_store := store "warn" true "1970-01-01T00:00:00Z";
     w_setLevel := setLevel;
     w_now_since := 0;
     w_now_stamp := 0;
     w_config_set := None;
     w_update_check := Ok false;
     w_cli := CliDispatch "warn";
     w_action := ActOk;
     w_app_stdout := [];
     w_app_stderr := [] |}.

Definition run : World -> Z * State := run path_join time_parse time_format.
Definition exit_code : World -> Z := exit_code path_join time_parse time_format.
Definition final : World -> State := final path_join time_parse time_format.

(** 2024-03-01T12:00:00Z and the same time on the two days before. *)
Definition noon_mar1 : Z := 1709294400.
Definition noon_feb29 : Z := 1709208000.
Definition noon_feb28 : Z := 1709121600.

(** Index files of two lines and of one. *)
Definition index2 : Scanner :=
  {| sc_tokens := ["gotest"; "/srv/gotest"]; sc_err := None |}.
Definition index1 : Scanner :=
  {| sc_tokens := ["gotest"]; sc_err := None |}.

(** At noon of March 1st: a stamp of two days before, with the update
    check failing, or succeeding with an update; the same stamp with
    updateNotify off; a stamp of six hours before; a stamp that is no
    timestamp, with updateNotify on and off. *)
Definition stale_failing : World :=
  world (store "info" true "2024-02-28T12:00:00Z") noon_mar1
        (Err "Get https://api.github.com: dial tcp: no route to host")
        (CliDispatch "debug").
Definition stale_updating : World :=
  world (store "info" true "2024-02-28T12:00:00Z") noon_mar1 (Ok true)
        (CliDispatch "warn").
Definition stale_quiet : World :=
  world (store "info" false "2024-02-28T12:00:00Z") noon_mar1 (Ok true)
        (CliDispatch "warn").
Definition fresh : World :=
  world (store "info" true "2024-03-01T06:00:00Z") noon_mar1 (Ok true)
        (CliDispatch "debug").
Definition garbled : World :=
  world (store "info" true "yesterday") noon_mar1 (Ok true)
        (CliDispatch "warn").
Definition garbled_quiet : World :=
  world (store "info" false "yesterday") noon_mar1 (Ok true)
        (CliDispatch "warn").

(** An index file whose scanner fails after three lines. *)
Definition index_broken : Scanner :=
  {| sc_tokens := ["gotest"; "/srv/gotest"; "x"];
     sc_err := Some "bufio.Scanner: token too long" |}.

(** The run [fresh] with [--log error], with a flag the logger rejects,
    and with a command that fails. *)
Definition fresh_error : World := with_cli (CliDispatch "error") ActOk fresh.
Definition fresh_verbose : World := with_cli (CliDispatch "verbose") ActOk fresh.
Definition fresh_failing : World :=
  with_cli (CliDispatch "warn") (ActErr "update: not implemented") fresh.

(** `gotest frobnicate`: no subcommand of that name, the framework's
    help action ends in an error with exit code 3, which the framework
    prints before it calls [os.Exit(3)]. *)
Definition unknown_command : World :=
  with_app_output [] ["No help topic for 'frobnicate'" +:+ nl]
    (with_cli (CliDispatch "warn") (ActExit "No help topic for 'frobnicate'" 3)
       fresh).

(** `gotest --bogus`: the framework reports the flag, prints the help
    text and returns the error. *)
Definition unknown_flag : World :=
  with_app_output
    ["NAME:" +:+ nl; "   gotest - example CLI application with web capabilities" +:+ nl]
    ["Incorrect Usage: flag provided but not defined: -bogus" +:+ nl; nl]
    (with_cli (CliReturn (Some "flag provided but not defined: -bogus")) ActOk
       fresh).

(** A stamp in the future, and a stored level the logger rejects. *)
Definition ahead : World :=
  world (store "info" true "2030-01-01T00:00:00Z") noon_mar1 (Ok true)
        (CliDispatch "warn").
Definition loud : World :=
  world (store "loud" true "2024-03-01T06:00:00Z") noon_mar1 (Ok true)
        (CliDispatch "debug").

End Ref.

(** * Properties *)

Section Properties.

Variable path_join : string -> string -> string.
Variable time_parse : string -> result Z.
Variable time_format : Z -> string.

Local Abbreviation getDataPath := (getDataPath path_join).
Local Abbreviation startup := (startup path_join time_parse time_format).
Local Abbreviation run := (run path_join time_parse time_format).
Local Abbreviation exit_code := (exit_code path_join time_parse time_format).
Local Abbreviation final := (final path_join time_parse time_format).
Local Abbreviation new_stamp := (new_stamp time_format).
Local Abbreviation boots := (boots path_join).
Local Abbreviation reaches_app := (reaches_app path_join time_parse time_format).
Local Abbreviation at_app := (at_app path_join time_parse time_format).
Local Abbreviation update_passes := (update_passes time_parse).
Local Abbreviation step_fails := (step_fails path_join time_parse).
Local Abbreviation app_exits := (app_exits path_join time_parse).

(** ** The scanning loop *)

Lemma scan_loop_app (toks lines : list string) :
  scan_loop toks lines = lines ++ toks.
Proof.
  revert lines. induction toks as [|t toks IH]; intros lines; simpl.
  - by rewrite app_nil_r.
  - by rewrite IH, <- app_assoc.
Qed.

Lemma scan_loop_all (toks : list string) : scan_loop toks [] = toks.
Proof. apply scan_loop_app. Qed.

(** C1. Running as root (effective user ID 0) with an index file that
    opens and scans without error: if the file has a second line,
    [getDataPath] returns exactly that line; if it has fewer than two
    lines, [getDataPath] fails (with the "malformed index file" error);
    and the result is the same whatever the home directory lookup gives,
    so no path derived from the home directory is returned. *)
Theorem getDataPath_root_index (w : World) (sc : Scanner) :
  w_euid w = 0%Z ->
  w_open_index w = Ok sc ->
  sc_err sc = None ->
  (forall line, sc_tokens sc !! 1%nat = Some line -> getDataPath w = Ok line)
  /\ ((length (sc_tokens sc) < 2)%nat ->
      getDataPath w = Err ("malformed index file " +:+ DataIndexPath))
  /\ (forall w', w_euid w' = w_euid w -> w_open_index w' = w_open_index w ->
      getDataPath w' = getDataPath w).
Proof.
  intros Hroot Hopen Herr. split; [|split].
  - intros line Hline. unfold Main.getDataPath.
    rewrite Hroot, Hopen, Herr, scan_loop_all. simpl.
    apply lookup_lt_Some in Hline as Hlen.
    destruct (Nat.ltb_spec (length (sc_tokens sc)) 2) as [?|_]; [lia|].
    by rewrite Hline.
  - intros Hlen. unfold Main.getDataPath.
    rewrite Hroot, Hopen, Herr, scan_loop_all. simpl.
    by destruct (Nat.ltb_spec (length (sc_tokens sc)) 2) as [_|?]; [|lia].
  - intros w' Heuid Hopen'. unfold Main.getDataPath.
    by rewrite Heuid, Hopen', Hroot.
Qed.

(** ** Case analysis on a run

    [run] is a straight line of calls, each of which either fails (and
    the run returns 1) or lets the next one happen.  [unfold_run] exposes
    the calls; [step] splits on the next result the run depends on,
    preferring what the hypotheses already say about it. *)

Ltac unfold_run :=
  unfold Main.exit_code, Main.final, Main.reaches_app,
    Main.at_app, Main.run, run_body, Main.startup, boot,
    update_block, run_app, app_Run, before_hook, os_MkdirAll, xlog_New,
    database_New, config_Init, config_Get_string, config_Get_bool,
    config_Set, log_SetLevel, time_Parse, update_Check, xlog_Debug,
    fmt_Println, or_fatal, nil_or_fatal, fatal, emit, defer_call, modify,
    get_state, exit_with, halt_with, init_state, get_string, get_bool in *;
  unfold mbind, M_bind, mret, M_ret in *.

Ltac known :=
  match goal with
  | H : ?x = _ |- context [match ?x with _ => _ end] => rewrite H
  | H : ?x = _ |- context [if ?x then _ else _] => rewrite H
  end.

Ltac split_on :=
  match goal with
  | |- context [match ?x with _ => _ end] =>
      lazymatch x with
      | context [match _ with _ => _ end] => fail
      | _ => destruct x eqn:?
      end
  end.

Ltac step := first [known | split_on]; cbn in *.

Ltac run_cases := unfold_run; cbn in *; repeat step.

(** ** Exit code *)

Lemma over_a_day_true (d : Z) : (24 * Hour < d)%Z -> over_a_day d = true.
Proof. intros H. by apply Z.ltb_lt. Qed.

Lemma over_a_day_false (d : Z) : (d <= 24 * Hour)%Z -> over_a_day d = false.
Proof. intros H. by apply Z.ltb_ge. Qed.

Lemma hook_runs (l : string) :
  l <> DefaultLogLevel -> negb (l =? DefaultLogLevel)%string = true.
Proof. intros Hl. by apply negb_true_iff, String.eqb_neq. Qed.

Ltac settle := first [reflexivity | discriminate | congruence].

Lemma step_fails_exit_1 (w : World) : step_fails w -> exit_code w = 1%Z.
Proof.
  intros [e H|p e Hp H|p e Hp H|e H|e H|e H|e H|lvl e Hl H|e H|e Hn H
         |s e Hn Hs H|s t e Hn Hs Hp Hd%over_a_day_true H
         |s t e Hn Hs Hp Hd%over_a_day_true H|e H|l e Hc Hl%hook_runs H
         |l e Hc [->|Hl] H].
  all: run_cases; settle.
Qed.

Lemma app_exits_exit_code (w : World) (code : Z) :
  app_exits w code -> exit_code w = code.
Proof.
  intros ((p & lvl & []) & Hup & l & msg & Hcli & Hok & Hact).
  destruct Hup as [Hoff | (Hon & s & t & Hs & Hp & [Hd%over_a_day_false | (Hset & b & Hb)])];
    destruct Hok as [-> | Hl].
  all: run_cases; settle.
Qed.

Ltac name_step :=
  first
    [ solve [eapply fails_data_path; eassumption]
    | solve [eapply fails_data_dir; eassumption]
    | solve [eapply fails_log_dir; eassumption]
    | solve [eapply fails_logger; eassumption]
    | solve [eapply fails_database; eassumption]
    | solve [eapply fails_config_init; eassumption]
    | solve [eapply fails_set_level; eassumption]
    | solve [eapply fails_get_level; unfold get_string; repeat known; reflexivity]
    | solve [eapply fails_get_notify; unfold get_bool; repeat known; reflexivity]
    | solve [eapply fails_get_stamp; [eassumption|];
             unfold get_string; repeat known; reflexivity]
    | solve [eapply fails_parse; eassumption]
    | solve [eapply fails_set_stamp; try eassumption; by apply Z.ltb_lt]
    | solve [eapply fails_check; try eassumption; by apply Z.ltb_lt]
    | solve [eapply fails_cli; eassumption]
    | solve [eapply fails_hook; try eassumption;
             by apply String.eqb_neq, negb_true_iff]
    | solve [eapply fails_command; try eassumption;
             first [by right | by left; apply String.eqb_eq, negb_false_iff]] ].

Ltac name_exit_at :=
  split; [by eexists _, _; constructor|]; split;
  [ first [ by left
          | right; split; [done|]; do 2 eexists; repeat split; try done;
            first [by left; apply Z.ltb_ge | by right; eauto] ]
  | do 2 eexists; split; [done|]; split; [|done];
    first [by right | by left; apply String.eqb_eq, negb_false_iff] ].

Ltac name_exit := eexists; name_exit_at.

Lemma exit_code_cases (w : World) :
  step_fails w \/ (exists code, app_exits w code) \/ exit_code w = 0%Z.
Proof.
  unfold app_exits, update_passes.
  run_cases.
  all: first [ by right; right
             | left; name_step
             | right; left; name_exit ].
Qed.


(** ** The daily update check *)

(** Counting and ordering in a trace. *)

Lemma count_app (f : Event -> bool) (l1 l2 : list Event) :
  count f (l1 ++ l2) = count f l1 + count f l2.
Proof. induction l1 as [|ev l1 IH]; simpl; [done|]. rewrite IH. lia. Qed.

Lemma count_split (f : Event -> bool) (pre post : list Event) (ev : Event) :
  f ev = true -> count f (pre ++ ev :: post) = S (count f pre + count f post).
Proof. intros Hf. rewrite count_app. simpl. rewrite Hf. lia. Qed.

Lemma guarded_split (a b : Event -> bool) (pre post : list Event) (ev : Event) :
  guarded a b (pre ++ ev :: post) = true -> b ev = true ->
  exists ev', ev' ∈ pre /\ a ev' = true.
Proof.
  induction pre as [|ev0 pre IH]; simpl; intros Hg Hb.
  - by rewrite Hb in Hg.
  - apply andb_true_iff in Hg as [_ Hg]. destruct (a ev0) eqn:Ha.
    + exists ev0. split; [apply list_elem_of_here|done].
    + destruct (IH Hg Hb) as (ev' & Hin & Ha').
      exists ev'. split; [by apply list_elem_of_further|done].
Qed.

(** What [run] writes to the store, and when. *)

Lemma sets_are_stamps (w : World) :
  Forall (fun ev => forall k v e, ev = EvConfigSet k v e ->
                      k = "lastUpdateCheck" /\ v = new_stamp w)
         (st_trace (final w)).
Proof.
  run_cases.
  all: repeat (apply Forall_cons_2; [intros ? ? ? [=]; by subst|]).
  all: apply Forall_nil_2.
Qed.

Lemma check_guarded_by_set (w : World) :
  guarded is_set_ok is_check (st_trace (final w)) = true.
Proof. run_cases; reflexivity. Qed.

Lemma check_count (w : World) :
  count is_check (st_trace (final w)) = 0
  \/ (count is_check (st_trace (final w)) = 1
      /\ st_cfg (final w) !! "lastUpdateCheck" = Some (new_stamp w)).
Proof.
  run_cases.
  all: first [by left | right; split; [done|apply lookup_insert_eq]].
Qed.

(** C2. Whenever [run] calls [update.Check], a successful [config.Set]
    of "lastUpdateCheck" to the newly formatted time comes before it in
    the trace, no other check is made, and the store holds the new stamp
    at the end of the run, whatever the check returned.  And in a run
    that gets to the update check with updateNotify true and a stored
    lastUpdateCheck more than 24 hours before now, that [config.Set] is
    made, with no check before it; when it succeeds the check follows at
    once and a failing check ends the run with 1, the new stamp stored;
    when it fails no check is made. *)
Theorem stamp_stored_before_check (w : World) :
  (forall pre r post,
     st_trace (final w) = pre ++ EvUpdateCheck r :: post ->
     EvConfigSet "lastUpdateCheck" (new_stamp w) None ∈ pre
     /\ count is_check pre = 0 /\ count is_check post = 0
     /\ st_cfg (final w) !! "lastUpdateCheck" = Some (new_stamp w))
  /\ (forall p lvl s t,
        boots w p lvl ->
        w_store w !! "updateNotify" = Some (VBool true) ->
        w_store w !! "lastUpdateCheck" = Some (VStr s) ->
        time_parse s = Ok t ->
        (24 * Hour < time_sub (w_now_since w) t)%Z ->
        exists pre post,
          st_trace (final w)
            = pre ++ EvConfigSet "lastUpdateCheck" (new_stamp w) (w_config_set w)
                  :: post
          /\ count is_check pre = 0
          /\ (is_Some (w_config_set w) -> count is_check post = 0)
          /\ (w_config_set w = None ->
              (exists post', post = EvUpdateCheck (err_of (w_update_check w)) :: post')
              /\ st_cfg (final w) !! "lastUpdateCheck" = Some (new_stamp w)
              /\ (forall e, w_update_check w = Err e -> exit_code w = 1%Z))).
Proof.
  split.
  - intros pre r post Htrace.
    pose proof (check_guarded_by_set w) as Hg.
    pose proof (sets_are_stamps w) as Hsets.
    pose proof (check_count w) as Hcount.
    rewrite Htrace in Hg, Hsets, Hcount.
    rewrite (count_split is_check pre post (EvUpdateCheck r) eq_refl) in Hcount.
    destruct Hcount as [? | [Hone Hcfg]]; [lia|].
    destruct (guarded_split _ _ _ _ _ Hg eq_refl) as (ev & Hin & Hok).
    repeat split; [|lia|lia|done].
    destruct ev as [| | | | | | | |k v [e|] | | | | | | | |]; try discriminate.
    apply Forall_app in Hsets as [Hpre _].
    rewrite Forall_forall in Hpre.
    by destruct (Hpre _ Hin k v None eq_refl) as [-> ->].
  - intros p lvl s t [] Hn Hs Hp Hd%over_a_day_true.
    exists (boot_trace path_join p lvl
              ++ [EvConfigGet "updateNotify" None;
                  EvConfigGet "lastUpdateCheck" None;
                  EvTimeParse s None; EvDebug "Checking for updates..."]).
    unfold_run. cbn in *. repeat (known; cbn in * ).
    repeat step.
    all: eexists; split; [reflexivity|]; split; [reflexivity|].
    all: split; [intros [? ?]; first [reflexivity | discriminate]|].
    all: intros ?; try discriminate.
    all: split; [eexists; reflexivity|].
    all: split; [apply lookup_insert_eq|].
    all: intros ? ?; first [reflexivity | discriminate].
Qed.

(** C3. Whenever the stored lastUpdateCheck parses as RFC3339 and is not
    more than 24 hours before now (less than, or exactly, 24 hours),
    [run] makes no [update.Check] call, prints nothing to standard
    output (so no update notice), makes no [config.Set] call and leaves
    the config store as it was. *)
Theorem fresh_stamp_no_check (w : World) (s : string) (t : Z) :
  w_store w !! "lastUpdateCheck" = Some (VStr s) ->
  time_parse s = Ok t ->
  (time_sub (w_now_since w) t <= 24 * Hour)%Z ->
  count is_check (st_trace (final w)) = 0
  /\ st_stdout (final w) = []
  /\ count is_set (st_trace (final w)) = 0
  /\ st_cfg (final w) = w_store w.
Proof.
  intros Hs Hp Hd%over_a_day_false.
  run_cases; done.
Qed.

(** C4 (amended). In a run that gets to the update check with
    updateNotify true and a stored lastUpdateCheck more than 24 hours
    before now, [config.Set] of "lastUpdateCheck" is called exactly once;
    when it succeeds, the store holds the newly formatted time and
    [update.Check] is called exactly once; when it fails, the store is
    as before, no check is made and the run exits with 1. *)
Theorem stale_stamp_checked_once (w : World) (p lvl s : string) (t : Z) :
  boots w p lvl ->
  w_store w !! "updateNotify" = Some (VBool true) ->
  w_store w !! "lastUpdateCheck" = Some (VStr s) ->
  time_parse s = Ok t ->
  (24 * Hour < time_sub (w_now_since w) t)%Z ->
  count is_set (st_trace (final w)) = 1
  /\ (w_config_set w = None ->
      st_cfg (final w) !! "lastUpdateCheck" = Some (new_stamp w)
      /\ count is_check (st_trace (final w)) = 1)
  /\ (is_Some (w_config_set w) ->
      st_cfg (final w) = w_store w
      /\ count is_check (st_trace (final w)) = 0
      /\ exit_code w = 1%Z).
Proof.
  intros [] Hn Hs Hp Hd%over_a_day_true.
  unfold_run. cbn in *. repeat (known; cbn in * ).
  repeat step.
  all: split; [reflexivity|]; split.
  all: first [intros [? [=]] | intros [=] | intros _].
  all: repeat split; first [reflexivity | apply lookup_insert_eq].
Qed.

(** C5 (amended). Whenever updateNotify is true and the stored
    lastUpdateCheck is not a valid RFC3339 timestamp (absent, not a
    string, or a string that does not parse), [run] returns 1 with
    exactly one message on standard error and no command is dispatched;
    when start-up got as far as the update check, the message is the
    one about lastUpdateCheck. *)
Theorem bad_stamp_is_fatal (w : World) :
  w_store w !! "updateNotify" = Some (VBool true) ->
  (forall s, w_store w !! "lastUpdateCheck" = Some (VStr s) ->
             exists e, time_parse s = Err e) ->
  exit_code w = 1%Z
  /\ length (st_stderr (final w)) = 1
  /\ st_stdout (final w) = []
  /\ count is_action (st_trace (final w)) = 0
  /\ (forall p lvl, boots w p lvl ->
      exists e, st_stderr (final w)
                = ["failed to get lastUpdateCheck from config: " +:+ e +:+ nl]
             \/ st_stderr (final w)
                = ["failed to parse lastUpdateCheck time: " +:+ e +:+ nl]).
Proof.
  intros Hn Hbad.
  destruct (w_store w !! "lastUpdateCheck") as [[s|b]|] eqn:Hs.
  1: destruct (Hbad s eq_refl) as [e He].
  all: clear Hbad.
  all: run_cases.
  all: repeat split; try reflexivity.
  all: intros p' lvl' []; try congruence.
  all: eexists; first [left; reflexivity | right; reflexivity].
Qed.

(** ** Reaching the CLI application *)

(** Saturation of the duration never changes the outcome of the
    comparison with 24 hours. *)
Lemma over_a_day_sub (now t : Z) :
  over_a_day (time_sub now t) = (24 * Hour <? now - t)%Z.
Proof.
  unfold over_a_day, time_sub, minDuration, maxDuration, Hour.
  repeat case_match; lia.
Qed.

Lemma time_sub_range (now t : Z) :
  (minDuration <= time_sub now t <= maxDuration)%Z.
Proof.
  unfold time_sub, minDuration, maxDuration. repeat case_match; lia.
Qed.

(** X9. [run] gets as far as building the CLI application exactly when
    every step of lines 40-103 succeeds and the update block lets the
    run go on: updateNotify is off, or the stored stamp parses and is
    either at most 24 hours old or rewritten and checked without
    error. *)
Lemma reaches_app_iff (w : World) :
  reaches_app w <-> (exists p lvl, boots w p lvl) /\ update_passes w.
Proof.
  split.
  - unfold update_passes.
    run_cases; intros Hreach; try discriminate.
    all: (split; [by eexists _, _; constructor|]).
    all: first [by left | right; split; [done|]; do 2 eexists].
    all: repeat split; try done.
    all: first [by left; apply Z.ltb_ge | by right; eauto].
  - intros [(p & lvl & []) Hup].
    destruct Hup as [Hoff | (Hon & s & t & Hs & Hp & Hrest)].
    + unfold_run. cbn in *. by repeat (known; cbn in * ).
    + destruct Hrest as [Hd%over_a_day_false | (Hset & b & Hb)].
      * unfold_run. cbn in *. by repeat (known; cbn in * ).
      * unfold_run. cbn in *. repeat (known; cbn in * ).
        destruct (over_a_day _); cbn; [|done].
        repeat (known; cbn in * ). by destruct b.
Qed.

(** ** The log-level flag *)

(** C7. When [run] gets as far as the CLI application, the framework
    dispatches with [--log debug] and the logger accepts that level:
    at that point the logger is at the level loaded from the config
    store; the [Before] hook then calls [log.SetLevel("debug")], and the
    command runs right after it, once; the logger is at debug from the
    hook to the end of the run. *)
Theorem log_flag_debug_overrides (w : World) :
  reaches_app w ->
  w_cli w = CliDispatch "debug" ->
  w_setLevel w "debug" = None ->
  (exists lvl, w_store w !! "logLevel" = Some (VStr lvl)
               /\ st_level (at_app w) = Some lvl)
  /\ (exists post,
       st_trace (final w)
         = st_trace (at_app w)
             ++ EvSetLevel "debug" None :: EvAction (w_action w) :: post
       /\ count is_action (st_trace (at_app w)) = 0
       /\ count is_action post = 0
       /\ count is_setLevel post = 0)
  /\ st_level (final w) = Some "debug".
Proof.
  intros Hreach Hcli Hdebug.
  run_cases; try discriminate.
  all: split; [eexists; split; reflexivity|].
  all: split; [|reflexivity].
  all: eexists; split; [reflexivity|]; repeat split; reflexivity.
Qed.

(** C10. When [run] gets as far as the CLI application and the
    framework dispatches with [--log warn] (the built-in default), the
    [Before] hook makes no [log.SetLevel] call: the command runs next,
    no level is set after start-up, and the logger stays at the level
    loaded from the config store to the end of the run. *)
Theorem log_flag_default_keeps_config_level (w : World) :
  reaches_app w ->
  w_cli w = CliDispatch "warn" ->
  (exists post,
     st_trace (final w) = st_trace (at_app w) ++ EvAction (w_action w) :: post
     /\ count is_setLevel post = 0)
  /\ count is_setLevel (st_trace (final w)) = 1
  /\ (exists lvl, w_store w !! "logLevel" = Some (VStr lvl)
                  /\ st_level (at_app w) = Some lvl
                  /\ st_level (final w) = Some lvl).
Proof.
  intros Hreach Hcli.
  run_cases; try discriminate.
  all: split; [eexists; split; reflexivity|].
  all: split; [reflexivity|].
  all: eexists; repeat split; reflexivity.
Qed.

(** ** The updateNotify gate and the writes of the stamp *)

Lemma getDataPath_with_store (c : gmap string CfgVal) (w : World) :
  getDataPath (with_store c w) = getDataPath w.
Proof. reflexivity. Qed.

(** C9. Whenever the stored updateNotify is false, [run] never reads
    "lastUpdateCheck" from the config store, never parses a timestamp and
    makes no [update.Check] or [config.Set] call; a run that passes lines
    40-103 goes on to the CLI application; and the exit code, the trace
    and both output streams are the same over any store that differs only
    at "lastUpdateCheck" (a malformed or absent stamp included). *)
Theorem notify_off_skips_update_block (w : World) :
  w_store w !! "updateNotify" = Some (VBool false) ->
  (count is_get_stamp (st_trace (final w)) = 0
   /\ count is_parse (st_trace (final w)) = 0
   /\ count is_check (st_trace (final w)) = 0
   /\ count is_set (st_trace (final w)) = 0)
  /\ (forall p lvl, boots w p lvl -> reaches_app w)
  /\ (forall c : gmap string CfgVal,
        (forall k, k <> "lastUpdateCheck" -> c !! k = w_store w !! k) ->
        exit_code (with_store c w) = exit_code w
        /\ st_trace (final (with_store c w)) = st_trace (final w)
        /\ st_stdout (final (with_store c w)) = st_stdout (final w)
        /\ st_stderr (final (with_store c w)) = st_stderr (final w)).
Proof.
  intros Hn. split; [|split].
  - run_cases; repeat split; reflexivity.
  - intros p lvl []. unfold_run. cbn in *. by repeat (known; cbn in * ).
  - intros c Hc.
    assert (c !! "logLevel" = w_store w !! "logLevel") as Hl by by apply Hc.
    assert (c !! "updateNotify" = Some (VBool false)) as Hu
      by by rewrite Hc.
    unfold_run. rewrite getDataPath_with_store. cbn in *. rewrite ?Hl.
    repeat (first [rewrite Hu | step]; cbn in * ).
    all: repeat split; reflexivity.
Qed.

(** C8. Every [config.Set] call of [run] is on "lastUpdateCheck" with
    the current time formatted as RFC3339, and there is at most one; the
    store at the end is the store at the start, or that store with the
    formatted time under "lastUpdateCheck".  So whenever the time library
    parses what it formats for the current time, a stored stamp with
    property [P] of parseable strings (in particular: being parseable)
    is followed by a stored stamp with that property. *)
Theorem stamp_writes_are_formatted_now (w : World) :
  Forall (fun ev => forall k v e, ev = EvConfigSet k v e ->
                      k = "lastUpdateCheck" /\ v = new_stamp w)
         (st_trace (final w))
  /\ count is_set (st_trace (final w)) <= 1
  /\ (st_cfg (final w) = w_store w
      \/ st_cfg (final w) = <["lastUpdateCheck" := new_stamp w]> (w_store w))
  /\ (forall s t t',
        w_store w !! "lastUpdateCheck" = Some (VStr s) ->
        time_parse s = Ok t ->
        time_parse (time_format (w_now_stamp w)) = Ok t' ->
        exists s' t'', st_cfg (final w) !! "lastUpdateCheck" = Some (VStr s')
                       /\ time_parse s' = Ok t'').
Proof.
  assert (count is_set (st_trace (final w)) <= 1
    /\ (st_cfg (final w) = w_store w
      \/ st_cfg (final w) = <["lastUpdateCheck" := new_stamp w]> (w_store w)))
    as (Hcount & Hcfg).
  { run_cases.
    all: split; [cbn; lia|].
    all: first [left; reflexivity | right; reflexivity]. }
  split; [apply sets_are_stamps|].
  repeat split; try done.
  intros s t t' Hs Hp Hnow. destruct Hcfg as [-> | ->].
  - by exists s, t.
  - exists (time_format (w_now_stamp w)), t'. split; [|done].
    apply lookup_insert_eq.
Qed.

(** * Further properties of main.go *)

(** ** getDataPath, the other paths *)

(** X1. Not running as root, [getDataPath] is the home directory joined
    with ".gotest" (the name of the program, not ".goweb" as the comment
    in the source says); when the home directory cannot be determined it
    fails with that error wrapped; and the index file plays no part. *)
Theorem getDataPath_user_home (w : World) :
  w_euid w <> 0%Z ->
  (forall home, w_home w = Ok home ->
                getDataPath w = Ok (path_join home ".gotest"))
  /\ (forall e, w_home w = Err e ->
                getDataPath w = Err ("cannot determine home dir: " +:+ e))
  /\ (forall w', w_euid w' = w_euid w -> w_home w' = w_home w ->
                 getDataPath w' = getDataPath w).
Proof.
  intros Huser. apply Z.eqb_neq in Huser. unfold Main.getDataPath.
  repeat split.
  - intros home Hhome. by rewrite Huser, Hhome.
  - intros e He. by rewrite Huser, He.
  - intros w' Heuid Hhome. by rewrite Heuid, Hhome, Huser.
Qed.

(** X2. Running as root, [getDataPath] succeeds with [p] exactly when the
    index file opens, the scanner ends without error and its second line
    is [p].  A file that does not open gives "failed to open", and a
    scanner error gives "failed reading" however many lines were read
    before it. *)
Theorem getDataPath_root_ok_iff (w : World) :
  w_euid w = 0%Z ->
  (forall p, getDataPath w = Ok p
             <-> exists sc, w_open_index w = Ok sc /\ sc_err sc = None
                            /\ sc_tokens sc !! 1%nat = Some p)
  /\ (forall e, w_open_index w = Err e ->
        getDataPath w = Err ("failed to open " +:+ DataIndexPath +:+ ": " +:+ e))
  /\ (forall sc e, w_open_index w = Ok sc -> sc_err sc = Some e ->
        getDataPath w = Err ("failed reading " +:+ DataIndexPath +:+ ": " +:+ e)).
Proof.
  intros Hroot. unfold Main.getDataPath. rewrite Hroot. simpl.
  split; [|split].
  - intros p. destruct (w_open_index w) as [sc|e]; [|split; [done|]].
    + rewrite scan_loop_all. destruct (sc_err sc) as [e|] eqn:Herr.
      { split; [done|]. intros (sc' & [= <-] & Herr' & _). congruence. }
      destruct (Nat.ltb_spec (length (sc_tokens sc)) 2) as [Hlen|Hlen].
      * split; [done|]. intros (sc' & [= <-] & _ & Hp).
        apply lookup_lt_Some in Hp. lia.
      * destruct (lookup_lt_is_Some_2 (sc_tokens sc) 1 ltac:(lia)) as [q Hq].
        rewrite Hq. simpl. split.
        -- intros [= <-]. by exists sc.
        -- intros (sc' & [= <-] & _ & Hp). congruence.
    + by intros (sc & [=] & _).
  - by intros e ->.
  - intros sc e -> Herr. by rewrite Herr.
Qed.

(** ** run: failures, output and cleanup *)

Ltac find_event :=
  repeat first [apply list_elem_of_here | apply list_elem_of_further].

Ltac failed_event :=
  match goal with
  | |- context [EvGetDataPath (Some ?e)] => exists (EvGetDataPath (Some e)), e
  | |- context [EvMkdirAll ?p (Some ?e)] => exists (EvMkdirAll p (Some e)), e
  | |- context [EvXlogNew ?a ?b (Some ?e)] => exists (EvXlogNew a b (Some e)), e
  | |- context [EvDbNew (Some ?e)] => exists (EvDbNew (Some e)), e
  | |- context [EvConfigInit (Some ?e)] => exists (EvConfigInit (Some e)), e
  | |- context [EvConfigGet ?k (Some ?e)] => exists (EvConfigGet k (Some e)), e
  | |- context [EvSetLevel ?l (Some ?e)] => exists (EvSetLevel l (Some e)), e
  | |- context [EvTimeParse ?s (Some ?e)] => exists (EvTimeParse s (Some e)), e
  | |- context [EvConfigSet ?k ?v (Some ?e)] => exists (EvConfigSet k v (Some e)), e
  | |- context [EvUpdateCheck (Some ?e)] => exists (EvUpdateCheck (Some e)), e
  | |- context [EvCliReturn (Some ?e)] => exists (EvCliReturn (Some e)), e
  | |- context [EvAction (ActErr ?e)] => exists (EvAction (ActErr e)), e
  end.

Lemma streams_of_run (w : World) :
  (st_out (final w) = st_stdout (final w)
   /\ st_err (final w) = st_stderr (final w))
  \/ (reaches_app w
      /\ st_out (final w) = st_stdout (final w) ++ w_app_stdout w
      /\ st_err (final w) = w_app_stderr w ++ st_stderr (final w)).
Proof.
  run_cases.
  all: first [ by left
             | right; split; [reflexivity|];
               split; first [reflexivity | by rewrite app_nil_r] ].
Qed.

(** X3. The code of [run] itself writes to standard error only when
    [run] returns 1, and then exactly one line, which ends with the error
    of a call that failed; it writes nothing when the exit code is 0 and
    nothing when the framework ends the process inside [app.Run].
    Standard error as a whole is that line alone when [run] does not get
    to the CLI application, and otherwise what is written inside
    [app.Run] followed by what [run] writes. *)
Theorem exit_code_and_stderr (w : World) :
  ((exit_code w = 0%Z /\ st_stderr (final w) = [])
   \/ (exit_code w = 1%Z
       /\ exists ev e prefix,
            ev ∈ st_trace (final w) /\ ev_err ev = Some e
            /\ st_stderr (final w) = [prefix +:+ e +:+ nl])
   \/ (exists code, app_exits w code /\ exit_code w = code
                     /\ st_stderr (final w) = []))
  /\ (st_err (final w) = st_stderr (final w)
      \/ (reaches_app w
          /\ st_err (final w) = w_app_stderr w ++ st_stderr (final w))).
Proof.
  split.
  - unfold app_exits, update_passes. run_cases.
    all: first [ by left
               | right; left; split; [done|]; failed_event;
                 first [exists ""; split; [find_event|]; split; reflexivity
                       | eexists; split; [find_event|]; split; reflexivity]
               | right; right; eexists; split; [name_exit_at|];
                 split; reflexivity ].
  - destruct (streams_of_run w) as [[_ H] | (Hr & _ & H)]; [by left|by right].
Qed.

(** X4. Whenever [run] returns, failures included, the trace ends with
    the deferred calls in reverse order of their registration:
    [db.Close] if and only if [database.New] succeeded, then [log.Close]
    if and only if [xlog.New] succeeded, then [stop]; and none of them
    is called earlier.  When instead the framework ends the process
    inside [app.Run], no deferred call runs at all, although logger and
    database were made: they are left unclosed. *)
Theorem deferred_calls_close_what_was_opened (w : World) :
  ((forall code, ~ app_exits w code) ->
   exists body,
     st_trace (final w) = body ++ closes body
     /\ count is_close body = 0)
  /\ (forall code, app_exits w code ->
      count is_close (st_trace (final w)) = 0
      /\ existsb logger_made (st_trace (final w)) = true
      /\ existsb db_made (st_trace (final w)) = true).
Proof.
  split.
  - intros Hno. exists (body_of (st_trace (final w))).
    revert Hno. unfold app_exits, update_passes.
    run_cases; intros Hno.
    all: first [ split; reflexivity
               | exfalso; eapply Hno; name_exit_at ].
  - intros code ((p & lvl & []) & Hup & l & msg & Hcli & Hok & Hact).
    destruct Hup as [Hoff | (Hon & s & t & Hs & Hp & [Hd%over_a_day_false | (Hset & b & Hb)])];
      destruct Hok as [-> | Hl].
    all: run_cases; try discriminate; repeat split; reflexivity.
Qed.

Lemma aftermath_not_failed (ev : Event) :
  is_aftermath ev = true -> ev_failed ev = false.
Proof. by destruct ev. Qed.

Lemma stops_at_failure_split (pre post : list Event) (ev : Event) :
  stops_at_failure (pre ++ ev :: post) = true ->
  ev_failed ev = true ->
  forallb (fun ev' => negb (ev_failed ev')) pre = true
  /\ forallb is_aftermath post = true.
Proof.
  induction pre as [|ev0 pre IH]; simpl; intros Hstop Hev.
  - by rewrite Hev in Hstop.
  - destruct (ev_failed ev0) eqn:H0; simpl.
    + rewrite forallb_app in Hstop. simpl in Hstop.
      apply andb_true_iff in Hstop as [_ [Haft _]%andb_true_iff].
      apply aftermath_not_failed in Haft. congruence.
    + by apply IH.
Qed.

Lemma run_stops_at_failure (w : World) :
  stops_at_failure (st_trace (final w)) = true.
Proof. run_cases; reflexivity. Qed.

(** X5. [run] stops at the first call that fails: every call before it
    succeeded, and after it come only [log.Error] and the deferred
    calls -- no further directory, logger, database, config, network or
    command call. *)
Theorem run_stops_at_first_error (w : World) (pre post : list Event) (ev : Event) (e : string) :
  st_trace (final w) = pre ++ ev :: post ->
  ev_err ev = Some e ->
  Forall (fun ev' => ev_err ev' = None) pre
  /\ Forall (fun ev' => is_aftermath ev' = true) post.
Proof.
  intros Htrace Herr.
  pose proof (run_stops_at_failure w) as Hstop. rewrite Htrace in Hstop.
  destruct (stops_at_failure_split pre post ev Hstop) as [Hpre Hpost].
  { unfold ev_failed. by rewrite Herr. }
  split.
  - rewrite forallb_forall in Hpre. apply Forall_forall. intros ev' Hin.
    apply list_elem_of_In, Hpre in Hin. unfold ev_failed in Hin.
    by destruct (ev_err ev').
  - rewrite forallb_forall in Hpost. apply Forall_forall. intros ev' Hin.
    by apply Hpost, list_elem_of_In.
Qed.

(** X6. The code of [run] itself writes to standard output nothing or
    the one update notice, and the notice exactly when [update.Check]
    was called and returned true.  Standard output as a whole is that,
    followed by what is written inside [app.Run] when [run] gets that
    far. *)
Theorem notice_iff_update_available (w : World) :
  (st_stdout (final w) = [] \/ st_stdout (final w) = [update_notice +:+ nl])
  /\ (st_stdout (final w) = [update_notice +:+ nl]
      <-> count is_check (st_trace (final w)) = 1
          /\ w_update_check w = Ok true)
  /\ (st_out (final w) = st_stdout (final w)
      \/ (reaches_app w
          /\ st_out (final w) = st_stdout (final w) ++ w_app_stdout w)).
Proof.
  split; [|split].
  - run_cases; first [by left | by right].
  - run_cases.
    all: split; [try done; intros [=] | intros [[=] ?]; try done].
  - destruct (streams_of_run w) as [[H _] | (Hr & H & _)]; [by left|by right].
Qed.

(** ** run: the CLI application *)

(** X7. When [run] gets as far as the CLI application and the framework
    dispatches with a [log] flag other than "warn" that the logger
    accepts, the [Before] hook sets that level right before the command
    runs, and the logger is at that level at the end of the run. *)
Theorem log_flag_sets_level (w : World) (l : string) :
  reaches_app w ->
  w_cli w = CliDispatch l ->
  l <> "warn" ->
  w_setLevel w l = None ->
  (exists post,
     st_trace (final w)
       = st_trace (at_app w) ++ EvSetLevel l None :: EvAction (w_action w) :: post
     /\ count is_action post = 0 /\ count is_setLevel post = 0)
  /\ st_level (final w) = Some l.
Proof.
  intros Hreach Hcli Hl%String.eqb_neq%negb_true_iff Hset.
  change "warn" with DefaultLogLevel in Hl.
  revert Hreach. run_cases; intros Hreach; try discriminate.
  all: split; [eexists; split; [reflexivity|]; split; reflexivity|reflexivity].
Qed.

(** X8. When [run] gets as far as the CLI application and [app.Run]
    returns an error -- from the framework itself, from [log.SetLevel]
    in the [Before] hook (a [log] flag the logger rejects), or from the
    command -- [run] logs it with [log.Error], prints it on a line of
    standard error and returns 1.  When it is the hook that fails, the
    command is not run and the logger keeps the level it had. *)
Theorem app_error_is_logged_and_printed (w : World) (e : string) :
  reaches_app w ->
  w_cli w = CliReturn (Some e)
  \/ (exists l, w_cli w = CliDispatch l
        /\ ((l <> "warn" /\ w_setLevel w l = Some e)
            \/ ((l = "warn" \/ w_setLevel w l = None) /\ w_action w = ActErr e))) ->
  exit_code w = 1%Z
  /\ st_stderr (final w) = [e +:+ nl]
  /\ EvLogError e ∈ st_trace (final w)
  /\ (forall l, w_cli w = CliDispatch l -> l <> "warn" ->
      w_setLevel w l = Some e ->
      count is_action (st_trace (final w)) = 0
      /\ st_level (final w) = st_level (at_app w)).
Proof.
  intros Hreach Hfail. revert Hreach.
  destruct Hfail
    as [Hcli | (l & Hcli & [[Hl%String.eqb_neq%negb_true_iff Hset] | [Hok Hact]])].
  - run_cases; intros Hreach; try discriminate.
    all: split; [reflexivity|]; split; [reflexivity|]; split; [find_event|].
    all: intros ? [=].
  - change "warn" with DefaultLogLevel in Hl.
    run_cases; intros Hreach; try discriminate.
    all: split; [reflexivity|]; split; [reflexivity|]; split; [find_event|].
    all: intros ? [= <-] _ _; split; reflexivity.
  - assert (forall l', CliDispatch l = CliDispatch l' -> l' <> "warn" ->
              w_setLevel w l' = Some e -> False) as Hno.
    { intros l' [= <-] Hl Hset. destruct Hok; congruence. }
    destruct (String.eqb_spec l DefaultLogLevel)
      as [-> | Hl%String.eqb_neq%negb_true_iff].
    + run_cases; intros Hreach; try discriminate.
      all: split; [reflexivity|]; split; [reflexivity|]; split; [find_event|].
      all: intros l' Hl' Hne Hset'; destruct (Hno l' Hl' Hne Hset').
    + destruct Hok as [-> | Hset]; [done|].
      run_cases; intros Hreach; try discriminate.
      all: split; [reflexivity|]; split; [reflexivity|]; split; [find_event|].
      all: intros l' Hl' Hne Hset'; destruct (Hno l' Hl' Hne Hset').
Qed.

(** X10. The exit code is 0 exactly when every step of lines 40-103
    succeeds, the update block lets the run go on, and [app.Run] returns
    nil (or the command ends in an error that carries the exit code 0,
    with which the framework then exits). *)
Theorem run_succeeds_iff (w : World) :
  exit_code w = 0%Z
  <-> (exists p lvl, boots w p lvl) /\ update_passes w /\ app_passes w.
Proof.
  unfold update_passes, app_passes. split.
  - run_cases; intros Hexit; try discriminate.
    all: (split; [by eexists _, _; constructor|]).
    all: split;
      [ first [ by left
              | right; split; [done|]; do 2 eexists; repeat split; try done;
                first [by left; apply Z.ltb_ge | by right; eauto] ] | ].
    all: try done.
    all: split;
      [ first [by right | by left; apply String.eqb_eq, negb_false_iff] | ].
    all: first [by left | right; subst; by eexists].
  - intros ((p & lvl & []) & Hup & Happ).
    assert (reaches_app w) as Hreach.
    { destruct Hup as [Hoff | (Hon & s & t & Hs & Hp & Hrest)].
      - unfold_run. cbn in *. by repeat (known; cbn in * ).
      - destruct Hrest as [Hd%over_a_day_false | (Hset & b & Hb)].
        + unfold_run. cbn in *. by repeat (known; cbn in * ).
        + unfold_run. cbn in *. repeat (known; cbn in * ).
          destruct (over_a_day _); cbn; [|done].
          repeat (known; cbn in * ). by destruct b. }
    clear Hup. revert Hreach.
    destruct (w_cli w) as [r | l] eqn:Hcli.
    + subst r. run_cases; intros Hreach; try discriminate; reflexivity.
    + destruct Happ as [[-> | Hset] [Hact | [msg Hact]]].
      all: run_cases; intros Hreach; try discriminate; reflexivity.
Qed.

(** X11. In a run that gets to the update check with updateNotify true,
    a stored stamp that parses and a working [config.Set], the check is
    made exactly when the stored time is more than 24 hours before the
    clock reading, as exact integers: that a Duration saturates at the
    ends of its range never changes the decision, and a stamp in the
    future is never checked. *)
Theorem check_iff_stamp_over_a_day_old (w : World) (p lvl s : string) (t : Z) :
  boots w p lvl ->
  w_store w !! "updateNotify" = Some (VBool true) ->
  w_store w !! "lastUpdateCheck" = Some (VStr s) ->
  time_parse s = Ok t ->
  w_config_set w = None ->
  (count is_check (st_trace (final w)) = 1
   <-> (24 * Hour < w_now_since w - t)%Z)
  /\ (count is_check (st_trace (final w)) = 0
      <-> (w_now_since w - t <= 24 * Hour)%Z).
Proof.
  intros [] Hn Hs Hp Hset.
  rewrite <- Z.ltb_lt, <- Z.ltb_ge, <- over_a_day_sub.
  unfold_run. cbn in *. repeat (known; cbn in * ).
  repeat step.
  all: split; split; first [reflexivity | discriminate].
Qed.

(** ** run: the config store *)

(** X12. A stored logLevel that the logger rejects is fatal to every
    invocation: once directories, logger, database and config are set
    up, [run] prints "failed to set log level", returns 1 with the
    logger still at the built-in "warn", and never reads updateNotify or
    gets to the CLI application -- so no [--log] flag can override it. *)
Theorem bad_stored_level_is_fatal (w : World) (p lvl e : string) :
  getDataPath w = Ok p ->
  w_mkdir w p = None ->
  w_mkdir w (path_join p "logs") = None ->
  w_xlog_new w = None ->
  w_db_new w = None ->
  w_config_init w = None ->
  w_store w !! "logLevel" = Some (VStr lvl) ->
  w_setLevel w lvl = Some e ->
  exit_code w = 1%Z
  /\ st_stderr (final w) = ["failed to set log level: " +:+ e +:+ nl]
  /\ st_level (final w) = Some "warn"
  /\ st_trace (final w)
     = [EvGetDataPath None; EvMkdirAll p None;
        EvMkdirAll (path_join p "logs") None;
        EvXlogNew (path_join p "logs") "warn" None; EvDbNew None;
        EvDebug "Database initialized"; EvConfigInit None;
        EvDebug "Config initialized"; EvConfigGet "logLevel" None;
        EvSetLevel lvl (Some e); EvDbClose; EvLogClose; EvStop].
Proof.
  intros Hp Hd Hl Hx Hdb Hc Hlvl Hset.
  unfold_run. cbn in *. repeat (known; cbn in * ).
  repeat split; reflexivity.
Qed.

(** X13. [run] reads three keys of the config store and no other: over
    two stores that agree on logLevel, updateNotify and lastUpdateCheck
    the exit code, the trace and both output streams are the same; and
    at the end the store differs from the one at the start at most at
    lastUpdateCheck. *)
Theorem run_reads_three_keys (w : World) (c : gmap string CfgVal) :
  c !! "logLevel" = w_store w !! "logLevel" ->
  c !! "updateNotify" = w_store w !! "updateNotify" ->
  c !! "lastUpdateCheck" = w_store w !! "lastUpdateCheck" ->
  exit_code (with_store c w) = exit_code w
  /\ st_trace (final (with_store c w)) = st_trace (final w)
  /\ st_stdout (final (with_store c w)) = st_stdout (final w)
  /\ st_stderr (final (with_store c w)) = st_stderr (final w)
  /\ (forall k, k <> "lastUpdateCheck" ->
        st_cfg (final (with_store c w)) !! k = c !! k).
Proof.
  intros Hl Hn Hs.
  unfold_run. rewrite getDataPath_with_store. cbn in *.
  rewrite ?Hl, ?Hn, ?Hs.
  repeat (first [rewrite Hl | rewrite Hn | rewrite Hs
                 | rewrite lookup_insert_eq | step]; cbn in * ).
  all: repeat split; try reflexivity.
  all: intros k Hk; try reflexivity.
  all: by rewrite lookup_insert_ne.
Qed.

End Properties.

(** * The model on concrete runs *)

Example ref_format : Ref.time_format (Ref.noon_feb29 * Ref.second) = "2024-02-29T12:00:00Z".
Proof. vm_compute. reflexivity. Qed.

Example ref_parse : Ref.time_parse "2024-02-29T12:00:00Z" = Ok (Ref.noon_feb29 * Ref.second)%Z.
Proof. vm_compute. reflexivity. Qed.

Example ref_parse_bad : err_of (Ref.time_parse "2023-02-29T12:00:00Z") <> None.
Proof. vm_compute. discriminate. Qed.

(** Exactly 24 hours is not "more than 24 hours". *)
Example a_day_is_not_over_a_day :
  over_a_day (time_sub (Ref.noon_mar1 * Ref.second) (Ref.noon_feb29 * Ref.second)) = false
  /\ over_a_day (time_sub (Ref.noon_mar1 * Ref.second + 1) (Ref.noon_feb29 * Ref.second)) = true.
Proof. split; vm_compute; reflexivity. Qed.

(** A whole run: a stamp of two days ago, an update available, no
    [--log] flag. *)
Example run_stale_updating :
  Ref.exit_code Ref.stale_updating = 0%Z
  /\ st_trace (Ref.final Ref.stale_updating)
     = [EvGetDataPath None; EvMkdirAll "/home/ada/.gotest" None;
        EvMkdirAll "/home/ada/.gotest/logs" None;
        EvXlogNew "/home/ada/.gotest/logs" "warn" None; EvDbNew None;
        EvDebug "Database initialized"; EvConfigInit None;
        EvDebug "Config initialized"; EvConfigGet "logLevel" None;
        EvSetLevel "info" None; EvConfigGet "updateNotify" None;
        EvConfigGet "lastUpdateCheck" None;
        EvTimeParse "2024-02-28T12:00:00Z" None;
        EvDebug "Checking for updates...";
        EvConfigSet "lastUpdateCheck" (VStr "2024-03-01T12:00:00Z") None;
        EvUpdateCheck None; EvAction ActOk; EvDbClose; EvLogClose; EvStop]
  /\ st_stdout (Ref.final Ref.stale_updating) = [update_notice +:+ nl]
  /\ st_stderr (Ref.final Ref.stale_updating) = [].
Proof. repeat split; vm_compute; reflexivity. Qed.

(** A failing run as root: the index file has one line. *)
Example run_root_short_index :
  Ref.run (Ref.root_world Ref.index1)
  = (1%Z,
     {| st_cfg := w_store (Ref.root_world Ref.index1); st_level := None;
        st_stdout := [];
        st_stderr := ["failed to get data path: malformed index file /var/lib/gotest/index"
                      +:+ nl];
        st_trace := [EvGetDataPath (Some "malformed index file /var/lib/gotest/index");
                     EvStop];
        st_defers := [];
        st_out := [];
        st_err := ["failed to get data path: malformed index file /var/lib/gotest/index"
                   +:+ nl] |}).
Proof. vm_compute. reflexivity. Qed.


Lemma ref_boots (c : gmap string CfgVal) (now : Z) (upd : result bool)
    (cli : CliArgs) (lvl : string) :
  c !! "logLevel" = Some (VStr lvl) ->
  Ref.setLevel lvl = None ->
  boots Ref.path_join (Ref.world c now upd cli) "/home/ada/.gotest" lvl.
Proof. intros Hl Hs. by constructor. Qed.

(** Root with a two-line index gets the second line; with a one-line
    index, the malformed-index error. *)
Lemma getDataPath_root_index_witness :
  getDataPath Ref.path_join (Ref.root_world Ref.index2) = Ok "/srv/gotest"
  /\ getDataPath Ref.path_join (Ref.root_world Ref.index1)
     = Err "malformed index file /var/lib/gotest/index".
Proof.
  split.
  - destruct (getDataPath_root_index Ref.path_join (Ref.root_world Ref.index2)
                Ref.index2 eq_refl eq_refl eq_refl) as (Hline & _ & _).
    apply Hline. reflexivity.
  - destruct (getDataPath_root_index Ref.path_join (Ref.root_world Ref.index1)
                Ref.index1 eq_refl eq_refl eq_refl) as (_ & Hshort & _).
    apply Hshort. simpl. lia.
Defined.

(** A stamp of two days ago and a failing update check: the new stamp is
    in the store although the run exits with 1. *)
Lemma stamp_stored_before_check_witness :
  st_cfg (Ref.final Ref.stale_failing) !! "lastUpdateCheck"
    = Some (VStr "2024-03-01T12:00:00Z")
  /\ Ref.exit_code Ref.stale_failing = 1%Z.
Proof.
  destruct (stamp_stored_before_check Ref.path_join Ref.time_parse
              Ref.time_format Ref.stale_failing) as [_ Hstale].
  destruct (Hstale "/home/ada/.gotest" "info" "2024-02-28T12:00:00Z"
              (Ref.noon_feb28 * Ref.second)%Z)
    as (pre & post & _ & _ & _ & Hok).
  - by apply ref_boots.
  - reflexivity.
  - reflexivity.
  - vm_compute. reflexivity.
  - vm_compute. reflexivity.
  - destruct (Hok eq_refl) as (_ & Hcfg & Hexit). split.
    + exact Hcfg.
    + exact (Hexit _ eq_refl).
Defined.

(** A stamp of six hours ago: nothing happens. *)
Lemma fresh_stamp_no_check_witness :
  count is_check (st_trace (Ref.final Ref.fresh)) = 0
  /\ st_stdout (Ref.final Ref.fresh) = []
  /\ count is_set (st_trace (Ref.final Ref.fresh)) = 0
  /\ st_cfg (Ref.final Ref.fresh) = w_store Ref.fresh.
Proof.
  apply (fresh_stamp_no_check Ref.path_join Ref.time_parse Ref.time_format
           Ref.fresh "2024-03-01T06:00:00Z" (1709272800 * Ref.second)%Z).
  - reflexivity.
  - vm_compute. reflexivity.
  - vm_compute. discriminate.
Defined.

(** C4, as stated, fails: with updateNotify off, a stamp of two days ago
    is neither rewritten nor followed by a check. *)
Lemma stale_stamp_unchecked_when_notify_off :
  w_store Ref.stale_quiet !! "lastUpdateCheck" = Some (VStr "2024-02-28T12:00:00Z")
  /\ Ref.time_parse "2024-02-28T12:00:00Z" = Ok (Ref.noon_feb28 * Ref.second)%Z
  /\ (24 * Hour < time_sub (w_now_since Ref.stale_quiet) (Ref.noon_feb28 * Ref.second))%Z
  /\ st_cfg (Ref.final Ref.stale_quiet) !! "lastUpdateCheck"
     = Some (VStr "2024-02-28T12:00:00Z")
  /\ count is_set (st_trace (Ref.final Ref.stale_quiet)) = 0
  /\ count is_check (st_trace (Ref.final Ref.stale_quiet)) = 0
  /\ Ref.exit_code Ref.stale_quiet = 0%Z.
Proof. repeat split; vm_compute; reflexivity. Qed.

(** With updateNotify on, the same stamp is rewritten and checked once. *)
Lemma stale_stamp_checked_once_witness :
  count is_set (st_trace (Ref.final Ref.stale_updating)) = 1
  /\ st_cfg (Ref.final Ref.stale_updating) !! "lastUpdateCheck"
     = Some (VStr "2024-03-01T12:00:00Z")
  /\ count is_check (st_trace (Ref.final Ref.stale_updating)) = 1.
Proof.
  destruct (stale_stamp_checked_once Ref.path_join Ref.time_parse
              Ref.time_format Ref.stale_updating "/home/ada/.gotest" "info"
              "2024-02-28T12:00:00Z" (Ref.noon_feb28 * Ref.second)%Z)
    as (Hset & Hok & _).
  - by apply ref_boots.
  - reflexivity.
  - reflexivity.
  - vm_compute. reflexivity.
  - vm_compute. reflexivity.
  - destruct (Hok eq_refl) as [Hcfg Hcheck].
    exact (conj Hset (conj Hcfg Hcheck)).
Defined.

(** C5, as stated, fails: with updateNotify off, a stored stamp that is
    no timestamp does not stop the run. *)
Lemma bad_stamp_ignored_when_notify_off :
  w_store Ref.garbled_quiet !! "lastUpdateCheck" = Some (VStr "yesterday")
  /\ Ref.time_parse "yesterday" = Err "parsing time yesterday: not RFC3339"
  /\ Ref.exit_code Ref.garbled_quiet = 0%Z
  /\ st_stderr (Ref.final Ref.garbled_quiet) = []
  /\ count is_action (st_trace (Ref.final Ref.garbled_quiet)) = 1.
Proof. repeat split; vm_compute; reflexivity. Qed.

(** With updateNotify on, it does. *)
Lemma bad_stamp_is_fatal_witness :
  Ref.exit_code Ref.garbled = 1%Z
  /\ length (st_stderr (Ref.final Ref.garbled)) = 1
  /\ st_stdout (Ref.final Ref.garbled) = []
  /\ count is_action (st_trace (Ref.final Ref.garbled)) = 0.
Proof.
  destruct (bad_stamp_is_fatal Ref.path_join Ref.time_parse Ref.time_format
              Ref.garbled) as (Hexit & Herr & Hout & Hact & _).
  - reflexivity.
  - intros s [= <-]. eexists. vm_compute. reflexivity.
  - exact (conj Hexit (conj Herr (conj Hout Hact))).
Defined.

(** [--log debug] over a stored level of info. *)
Lemma log_flag_debug_overrides_witness :
  st_level (at_app Ref.path_join Ref.time_parse Ref.time_format Ref.fresh)
    = Some "info"
  /\ st_level (Ref.final Ref.fresh) = Some "debug".
Proof.
  destruct (log_flag_debug_overrides Ref.path_join Ref.time_parse
              Ref.time_format Ref.fresh) as (_ & _ & Hfinal).
  - vm_compute. reflexivity.
  - reflexivity.
  - reflexivity.
  - split; [vm_compute; reflexivity | exact Hfinal].
Defined.

(** [--log warn] over a stored level of info: the logger stays at info. *)
Lemma log_flag_default_keeps_config_level_witness :
  count is_setLevel (st_trace (Ref.final Ref.stale_updating)) = 1
  /\ st_level (Ref.final Ref.stale_updating) = Some "info".
Proof.
  destruct (log_flag_default_keeps_config_level Ref.path_join Ref.time_parse
              Ref.time_format Ref.stale_updating)
    as (_ & Hcount & lvl & Hlvl & _ & Hfinal).
  - vm_compute. reflexivity.
  - reflexivity.
  - split; [exact Hcount|].
    assert (Some (VStr lvl) = Some (VStr "info")) as [= ->]
      by (rewrite <- Hlvl; reflexivity).
    exact Hfinal.
Defined.

(** updateNotify off: the stamp "yesterday" is never looked at, and the
    run is the one over a store with a proper stamp. *)
Lemma notify_off_skips_update_block_witness :
  count is_get_stamp (st_trace (Ref.final Ref.garbled_quiet)) = 0
  /\ reaches_app Ref.path_join Ref.time_parse Ref.time_format Ref.garbled_quiet
  /\ st_trace (Ref.final Ref.stale_quiet) = st_trace (Ref.final Ref.garbled_quiet).
Proof.
  destruct (notify_off_skips_update_block Ref.path_join Ref.time_parse
              Ref.time_format Ref.garbled_quiet eq_refl)
    as ((Hget & _) & Hreach & Hsame).
  split; [exact Hget|]. split.
  - apply (Hreach "/home/ada/.gotest" "info"). by apply ref_boots.
  - destruct (Hsame (w_store Ref.stale_quiet)) as (_ & Htrace & _).
    + intros k Hk. unfold Ref.stale_quiet, Ref.garbled_quiet, Ref.world,
        Ref.store. simpl.
      rewrite !lookup_insert. repeat case_decide; congruence.
    + exact Htrace.
Defined.

(** The reference time functions parse what they format, so the stamp
    written in a run parses. *)
Lemma stamp_writes_are_formatted_now_witness :
  exists s t, st_cfg (Ref.final Ref.stale_updating) !! "lastUpdateCheck"
                = Some (VStr s)
              /\ Ref.time_parse s = Ok t.
Proof.
  destruct (stamp_writes_are_formatted_now Ref.path_join Ref.time_parse
              Ref.time_format Ref.stale_updating) as (_ & _ & _ & Hparse).
  apply (Hparse "2024-02-28T12:00:00Z" (Ref.noon_feb28 * Ref.second)%Z
                (Ref.noon_mar1 * Ref.second)%Z).
  - reflexivity.
  - vm_compute. reflexivity.
  - vm_compute. reflexivity.
Defined.

(** ** Further properties on concrete runs *)

(** An ordinary user gets the directory under the home directory. *)
Lemma getDataPath_user_home_witness :
  getDataPath Ref.path_join Ref.fresh = Ok "/home/ada/.gotest".
Proof.
  destruct (getDataPath_user_home Ref.path_join Ref.fresh) as (Hhome & _ & _).
  - discriminate.
  - exact (Hhome "/home/ada" eq_refl).
Defined.

(** As root: the second line of a good index; "failed reading" for an
    index whose scanner fails, although it has a second line. *)
Lemma getDataPath_root_ok_iff_witness :
  getDataPath Ref.path_join (Ref.root_world Ref.index2) = Ok "/srv/gotest"
  /\ getDataPath Ref.path_join (Ref.root_world Ref.index_broken)
     = Err "failed reading /var/lib/gotest/index: bufio.Scanner: token too long".
Proof.
  split.
  - destruct (getDataPath_root_ok_iff Ref.path_join (Ref.root_world Ref.index2)
                eq_refl) as (Hok & _ & _).
    apply Hok. exists Ref.index2. repeat split; reflexivity.
  - destruct (getDataPath_root_ok_iff Ref.path_join
                (Ref.root_world Ref.index_broken) eq_refl) as (_ & _ & Hread).
    exact (Hread Ref.index_broken _ eq_refl eq_refl).
Defined.

(** The run with the stamp "yesterday": every call before the failed
    parse succeeded, and only the deferred calls follow it. *)
Lemma run_stops_at_first_error_witness :
  Forall (fun ev => ev_err ev = None)
    (boot_trace Ref.path_join "/home/ada/.gotest" "info"
       ++ [EvConfigGet "updateNotify" None; EvConfigGet "lastUpdateCheck" None])
  /\ Forall (fun ev => is_aftermath ev = true) [EvDbClose; EvLogClose; EvStop].
Proof.
  apply (run_stops_at_first_error Ref.path_join Ref.time_parse Ref.time_format
           Ref.garbled _ _
           (EvTimeParse "yesterday" (Some "parsing time yesterday: not RFC3339"))
           "parsing time yesterday: not RFC3339").
  - vm_compute. reflexivity.
  - reflexivity.
Defined.

(** [--log error] over a stored level of info. *)
Lemma log_flag_sets_level_witness :
  st_level (Ref.final Ref.fresh_error) = Some "error".
Proof.
  destruct (log_flag_sets_level Ref.path_join Ref.time_parse Ref.time_format
              Ref.fresh_error "error") as [_ Hlevel].
  - vm_compute. reflexivity.
  - reflexivity.
  - discriminate.
  - reflexivity.
  - exact Hlevel.
Defined.

(** [--log verbose] is rejected and the command does not run; a failing
    command is reported the same way. *)
Lemma app_error_is_logged_and_printed_witness :
  (Ref.exit_code Ref.fresh_verbose = 1%Z
   /\ st_stderr (Ref.final Ref.fresh_verbose) = ["invalid log level: verbose" +:+ nl]
   /\ count is_action (st_trace (Ref.final Ref.fresh_verbose)) = 0)
  /\ (Ref.exit_code Ref.fresh_failing = 1%Z
      /\ st_stderr (Ref.final Ref.fresh_failing) = ["update: not implemented" +:+ nl]).
Proof.
  split.
  - destruct (app_error_is_logged_and_printed Ref.path_join Ref.time_parse
                Ref.time_format Ref.fresh_verbose "invalid log level: verbose")
      as (Hexit & Herr & _ & Hhook).
    + vm_compute. reflexivity.
    + right. exists "verbose". split; [reflexivity|]. left.
      split; [discriminate | reflexivity].
    + destruct (Hhook "verbose" eq_refl) as [Hact _];
        [discriminate | reflexivity |].
      exact (conj Hexit (conj Herr Hact)).
  - destruct (app_error_is_logged_and_printed Ref.path_join Ref.time_parse
                Ref.time_format Ref.fresh_failing "update: not implemented")
      as (Hexit & Herr & _).
    + vm_compute. reflexivity.
    + right. exists "warn". split; [reflexivity|]. right.
      split; [by left | reflexivity].
    + exact (conj Hexit Herr).
Defined.

(** A stamp of the year 2030 is not checked in 2024; one of two days ago
    is. *)
Lemma check_iff_stamp_over_a_day_old_witness :
  count is_check (st_trace (Ref.final Ref.ahead)) = 0
  /\ count is_check (st_trace (Ref.final Ref.stale_updating)) = 1.
Proof.
  split.
  - destruct (check_iff_stamp_over_a_day_old Ref.path_join Ref.time_parse
                Ref.time_format Ref.ahead "/home/ada/.gotest" "info"
                "2030-01-01T00:00:00Z" (1893456000 * Ref.second)%Z)
      as [_ [_ Hnone]].
    + by apply ref_boots.
    + reflexivity.
    + reflexivity.
    + vm_compute. reflexivity.
    + reflexivity.
    + apply Hnone. vm_compute. discriminate.
  - destruct (check_iff_stamp_over_a_day_old Ref.path_join Ref.time_parse
                Ref.time_format Ref.stale_updating "/home/ada/.gotest" "info"
                "2024-02-28T12:00:00Z" (Ref.noon_feb28 * Ref.second)%Z)
      as [[_ Hone] _].
    + by apply ref_boots.
    + reflexivity.
    + reflexivity.
    + vm_compute. reflexivity.
    + reflexivity.
    + apply Hone. vm_compute. reflexivity.
Defined.

(** A stored level "loud": the run fails before the flag is looked at. *)
Lemma bad_stored_level_is_fatal_witness :
  Ref.exit_code Ref.loud = 1%Z
  /\ st_stderr (Ref.final Ref.loud)
     = ["failed to set log level: invalid log level: loud" +:+ nl]
  /\ st_level (Ref.final Ref.loud) = Some "warn".
Proof.
  destruct (bad_stored_level_is_fatal Ref.path_join Ref.time_parse
              Ref.time_format Ref.loud "/home/ada/.gotest" "loud"
              "invalid log level: loud")
    as (Hexit & Herr & Hlevel & _); try reflexivity.
  exact (conj Hexit (conj Herr Hlevel)).
Defined.

(** A store with a fourth key gives the same run. *)
Lemma run_reads_three_keys_witness :
  let c := <["theme" := VStr "dark"]> (w_store Ref.stale_updating) in
  Ref.exit_code (with_store c Ref.stale_updating) = Ref.exit_code Ref.stale_updating
  /\ st_trace (Ref.final (with_store c Ref.stale_updating))
     = st_trace (Ref.final Ref.stale_updating)
  /\ st_cfg (Ref.final (with_store c Ref.stale_updating)) !! "theme"
     = Some (VStr "dark").
Proof.
  intros c.
  destruct (run_reads_three_keys Ref.path_join Ref.time_parse Ref.time_format
              Ref.stale_updating c) as (Hexit & Htrace & _ & _ & Hkeys);
    try reflexivity.
  split; [exact Hexit|]. split; [exact Htrace|].
  exact (Hkeys "theme" ltac:(discriminate)).
Defined.

(** ** The exit code on concrete runs *)



(** `gotest --bogus`: standard error has the two lines of the framework
    and then the line of [run]. *)
Lemma exit_code_and_stderr_witness :
  st_stderr (Ref.final Ref.unknown_flag)
    = ["flag provided but not defined: -bogus" +:+ nl]
  /\ st_err (Ref.final Ref.unknown_flag)
     = ["Incorrect Usage: flag provided but not defined: -bogus" +:+ nl; nl;
        "flag provided but not defined: -bogus" +:+ nl].
Proof.
  destruct (exit_code_and_stderr Ref.path_join Ref.time_parse Ref.time_format
              Ref.unknown_flag) as [_ [Hsame | [_ Herr]]].
  - exfalso. vm_compute in Hsame. discriminate.
  - split; [vm_compute; reflexivity|].
    etransitivity; [exact Herr|]. vm_compute. reflexivity.
Defined.

(** `gotest frobnicate`: logger and database are made and not closed. *)
Lemma deferred_calls_close_what_was_opened_witness :
  count is_close (st_trace (Ref.final Ref.unknown_command)) = 0
  /\ existsb logger_made (st_trace (Ref.final Ref.unknown_command)) = true
  /\ existsb db_made (st_trace (Ref.final Ref.unknown_command)) = true.
Proof.
  destruct (deferred_calls_close_what_was_opened Ref.path_join Ref.time_parse
              Ref.time_format Ref.unknown_command) as [_ Hexit].
  apply (Hexit 3%Z). split; [|split].
  - exists "/home/ada/.gotest", "info". by constructor.
  - right. split; [reflexivity|].
    exists "2024-03-01T06:00:00Z", (1709272800 * Ref.second)%Z.
    split; [reflexivity|]. split; [vm_compute; reflexivity|].
    left. vm_compute. discriminate.
  - exists "warn", "No help topic for 'frobnicate'".
    split; [reflexivity|]. split; [by left|reflexivity].
Defined.

(** `gotest --bogus` after a stale stamp would print the notice first;
    here, with a fresh stamp, standard output is the help text alone. *)
Lemma notice_iff_update_available_witness :
  st_stdout (Ref.final Ref.unknown_flag) = []
  /\ st_out (Ref.final Ref.unknown_flag) = w_app_stdout Ref.unknown_flag.
Proof.
  destruct (notice_iff_update_available Ref.path_join Ref.time_parse
              Ref.time_format Ref.unknown_flag) as (_ & _ & [Hsame | [_ Hout]]).
  - exfalso. vm_compute in Hsame. discriminate.
  - split; [vm_compute; reflexivity|].
    etransitivity; [exact Hout|]. vm_compute. reflexivity.
Defined.
